(** * Playwright-Scraper-Library: FileManager, PageHandler, BrowserManager

    A shallow embedding of the three wrapper classes of the library and the
    properties of their logging, error handling, waiting and state:
    FileManager (src/FileManager.js, lines 1-161), PageHandler (the same
    file, lines 1158-1361, after its two test suites) and BrowserManager
    (src/BrowserManager.js).

    The classes are glue around two third-party APIs: Node's [fs.promises]
    and Playwright.  Both are outside the repository, so they appear here as
    an oracle (record [Engine]): every theorem that quantifies over an
    [Engine] holds whatever the engine answers.  What the wrappers do around
    the engine (the order of calls, try/catch, console output, the fields of
    [this]) is transcribed from the JavaScript line by line. *)

From Stdlib Require Import ZArith QArith Qround Qreduction List String Ascii Bool Lia.
From Stdlib Require Import DecimalString.
Import ListNotations.

Local Open Scope string_scope.
Local Open Scope Z_scope.

Set Warnings "-register-all".

(** ** JavaScript values *)

(** Identity of an object owned by the engine (a Browser, a BrowserContext,
    a Page, an ElementHandle, a Buffer). *)
Definition Handle := nat.

(** The numbers the wrappers handle: the integers, the two infinities and
    NaN.  (A sum of integers computed in double arithmetic is one of these;
    the sign of zero is not kept.)  An integer is read as a number where one
    is expected. *)
Inductive JsNumber : Type :=
| Int (z : Z)
| Infinity (negative : bool)
| NaN.
Coercion Int : Z >-> JsNumber.

(** The values the wrappers handle.  [VLocator] is what [page.locator(selector,
    options)] returns: the page, the selector and the [hasText] option, and
    nothing resolved.  [VPromise] is a settled promise, [rejected] telling
    which way it settled.  [VError] is an [Error] object: its [name], its
    [code] property when it has one (Node's system errors) and its
    [message]. *)
Inductive JsVal : Type :=
| VUndefined
| VNull
| VBool (b : bool)
| VNum (n : JsNumber)
| VStr (s : string)
| VArray (elems : list JsVal)
| VRecord (fields : list (string * JsVal))
| VObject (h : Handle)
| VLocator (page : Handle) (selector : string) (hasText : option string)
| VPromise (rejected : bool) (settled : JsVal)
| VError (name : string) (code : option string) (message : string).

(** ToBoolean: [if (v)], [!v]. *)
Definition truthy (v : JsVal) : bool :=
  match v with
  | VUndefined | VNull => false
  | VBool b => b
  | VNum (Int z) => negb (z =? 0)
  | VNum (Infinity _) => true
  | VNum NaN => false
  | VStr s => negb (s =? "")%string
  | VArray _ | VRecord _ | VObject _ | VLocator _ _ _
  | VPromise _ _ | VError _ _ _ => true
  end.

Definition Z_to_string (n : Z) : string :=
  NilZero.string_of_int (Z.to_int n).

(** Whether [prefix] starts [s]. *)
Fixpoint starts_with (prefix s : string) : bool :=
  match prefix, s with
  | EmptyString, _ => true
  | String c p', String d s' => Ascii.eqb c d && starts_with p' s'
  | String _ _, EmptyString => false
  end.

(** [String(error)].  [Error.prototype.toString] gives the name when the
    message is empty, the message when the name is empty, and
    [name: message] otherwise.  The errors Node raises itself (their code
    starts with [ERR_]) have a [toString] of their own, which puts the code
    in brackets after the name; the system errors of [fs] ([ENOENT] and the
    like) and Playwright's errors use the inherited one. *)
Definition error_to_string (name : string) (code : option string)
           (message : string) : string :=
  match code with
  | Some c =>
      if starts_with "ERR_" c
      then name ++ " [" ++ c ++ "]: " ++ message
      else if (name =? "")%string then message
      else if (message =? "")%string then name
      else name ++ ": " ++ message
  | None =>
      if (name =? "")%string then message
      else if (message =? "")%string then name
      else name ++ ": " ++ message
  end.

(** ToString, as a template literal applies it to [${v}].  An array is its
    elements joined by commas, [null] and [undefined] elements giving the
    empty string. *)
Fixpoint to_str (v : JsVal) : string :=
  match v with
  | VUndefined => "undefined"
  | VNull => "null"
  | VBool true => "true"
  | VBool false => "false"
  | VNum (Int z) => Z_to_string z
  | VNum (Infinity false) => "Infinity"
  | VNum (Infinity true) => "-Infinity"
  | VNum NaN => "NaN"
  | VStr s => s
  | VArray elems =>
      (fix join (l : list JsVal) : string :=
         let element x :=
           match x with
           | VUndefined | VNull => ""
           | _ => to_str x
           end in
         match l with
         | [] => ""
         | [x] => element x
         | x :: rest => element x ++ "," ++ join rest
         end) elems
  | VRecord _ => "[object Object]"
  | VObject _ => "[object Object]"
  | VLocator _ selector _ => "locator('" ++ selector ++ "')"
  | VPromise _ _ => "[object Promise]"
  | VError name code message => error_to_string name code message
  end.

(** Property read [v.key] for the two properties the wrappers read off a
    caught error, [code] and [message]. *)
Definition get_prop (v : JsVal) (key : string) : JsVal :=
  match v with
  | VError _ code message =>
      if (key =? "message")%string then VStr message
      else if (key =? "code")%string then
             match code with Some c => VStr c | None => VUndefined end
      else VUndefined
  | VRecord fields =>
      match find (fun kv => (fst kv =? key)%string) fields with
      | Some kv => snd kv
      | None => VUndefined
      end
  | _ => VUndefined
  end.

(** [a === b] against a string literal. *)
Definition strict_eq_str (v : JsVal) (s : string) : bool :=
  match v with VStr s' => (s' =? s)%string | _ => false end.

(** [array[i]] *)
Definition array_at (v : JsVal) (i : Z) : JsVal :=
  match v with
  | VArray elems => if i <? 0 then VUndefined else nth (Z.to_nat i) elems VUndefined
  | _ => VUndefined
  end.

Definition TypeError (message : string) : JsVal :=
  VError "TypeError" None message.

(** [typeof v === 'string'], with the string. *)
Definition as_string (v : JsVal) : option string :=
  match v with VStr s => Some s | _ => None end.

(** The handle of an engine object. *)
Definition handle_of (v : JsVal) : option Handle :=
  match v with VObject h => Some h | _ => None end.

(** The values whose methods are the engine's: its objects and locators. *)
Definition is_engine_object (v : JsVal) : bool :=
  match v with
  | VObject _ | VLocator _ _ _ => true
  | _ => false
  end.

(** The error of [expr.member(...)] when the value [recv] of [expr] is no
    engine object: on [null] and [undefined] the property read fails; on
    the rest the call fails, and the message quotes the text of the
    expression, not its value. *)
Definition no_method_error (expr : string) (recv : JsVal) (member : string)
  : JsVal :=
  match recv with
  | VUndefined | VNull =>
      TypeError ("Cannot read properties of " ++ to_str recv
                 ++ " (reading '" ++ member ++ "')")
  | _ => TypeError (expr ++ "." ++ member ++ " is not a function")
  end.

(** ** Completions, engine calls and the trace *)

Inductive Completion (A : Type) : Type :=
| Normal (a : A)
| Throw (e : JsVal).
Arguments Normal {A} a.
Arguments Throw {A} e.

(** A call into the wrapped APIs: [Static "chromium" "launch" args] is
    [chromium.launch(...args)], [Method recv "goto" args] is
    [recv.goto(...args)]. *)
Inductive EngineCall : Type :=
| Static (module : string) (member : string) (args : list JsVal)
| Method (recv : JsVal) (member : string) (args : list JsVal).

Inductive Level : Type := LvlLog | LvlWarn | LvlError.

(** What an operation does that its caller can observe from outside: the
    engine calls it makes, each with the way it completed, and the console
    lines it prints, in order. *)
Inductive Event : Type :=
| ECall (c : EngineCall) (r : Completion JsVal)
| EConsole (lvl : Level) (args : list JsVal).

(** The wrapped world.  [engine_call] answers a call (a promise is awaited
    where the source awaits it, so the answer is how it settled);
    [math_random] is [Math.random()], a double, hence an exact rational;
    [json_stringify data indent] is [JSON.stringify(data, null, indent)],
    which can throw. *)
Record Engine : Type := {
  env_state : Type;
  engine_call : EngineCall -> env_state -> Completion JsVal * env_state;
  math_random : env_state -> Q * env_state;
  json_stringify : JsVal -> Z -> Completion JsVal
}.

(** The members of [require('fs').promises] (Node's documented promises
    API).  [existsSync] belongs to [require('fs')], not to this object. *)
Definition fs_promises_members : list string :=
  [ "access"; "appendFile"; "chmod"; "chown"; "constants"; "copyFile"; "cp";
    "glob"; "lchmod"; "lchown"; "link"; "lstat"; "lutimes"; "mkdir";
    "mkdtemp"; "open"; "opendir"; "readFile"; "readdir"; "readlink";
    "realpath"; "rename"; "rm"; "rmdir"; "stat"; "statfs"; "symlink";
    "truncate"; "unlink"; "utimes"; "watch"; "writeFile" ].

(** The members of Playwright's [chromium] (a BrowserType). *)
Definition chromium_members : list string :=
  [ "connect"; "connectOverCDP"; "executablePath"; "launch";
    "launchPersistentContext"; "launchServer"; "name" ].

Definition module_members (module : string) : list string :=
  if (module =? "fs")%string then fs_promises_members
  else if (module =? "chromium")%string then chromium_members
  else [].

Definition has_member (module member : string) : bool :=
  existsb (fun m => (m =? member)%string) (module_members module).

(** ** The monad of wrapper code

    A method body runs on the fields of [this] (type [T]) and on the state of
    the wrapped world; it completes normally or throws, may have changed
    [this], and has emitted a list of events.  Assignments to [this] made
    before a throw stay, as they do in JavaScript. *)

Section Monad.
Context {E : Engine}.

Record Run (T A : Type) : Type := mkRun {
  completion : Completion A;
  this_after : T;
  env_after : env_state E;
  events : list Event
}.
Arguments mkRun {T A}.
Arguments completion {T A}.
Arguments this_after {T A}.
Arguments env_after {T A}.
Arguments events {T A}.

Definition M (T A : Type) : Type := T -> env_state E -> Run T A.

Definition ret {T A} (a : A) : M T A :=
  fun this s => mkRun (Normal a) this s [].

Definition throw {T A} (e : JsVal) : M T A :=
  fun this s => mkRun (Throw e) this s [].

Definition bind {T A B} (m : M T A) (k : A -> M T B) : M T B :=
  fun this s =>
    match m this s with
    | mkRun (Normal a) this1 s1 ev1 =>
        match k a this1 s1 with
        | mkRun c this2 s2 ev2 => mkRun c this2 s2 (ev1 ++ ev2)
        end
    | mkRun (Throw e) this1 s1 ev1 => mkRun (Throw e) this1 s1 ev1
    end.

(** [try { body } catch (error) { handler }] *)
Definition try_catch {T A} (body : M T A) (handler : JsVal -> M T A) : M T A :=
  fun this s =>
    match body this s with
    | mkRun (Normal a) this1 s1 ev1 => mkRun (Normal a) this1 s1 ev1
    | mkRun (Throw e) this1 s1 ev1 =>
        match handler e this1 s1 with
        | mkRun c this2 s2 ev2 => mkRun c this2 s2 (ev1 ++ ev2)
        end
    end.

Definition get_this {T} : M T T :=
  fun this s => mkRun (Normal this) this s [].

Definition set_this {T} (this' : T) : M T unit :=
  fun _ s => mkRun (Normal tt) this' s [].

(** One call into the engine, awaited. *)
Definition perform {T} (c : EngineCall) : M T JsVal :=
  fun this s =>
    let (r, s') := engine_call E c s in
    mkRun r this s' [ECall c r].

(** [console.log(...)], [console.warn(...)], [console.error(...)] *)
Definition console {T} (lvl : Level) (args : list JsVal) : M T unit :=
  fun this s => mkRun (Normal tt) this s [EConsole lvl args].

(** [Math.random()] *)
Definition random {T} : M T Q :=
  fun this s =>
    let (r, s') := math_random E s in
    mkRun (Normal r) this s' [].

(** [JSON.stringify(data, null, indent)] *)
Definition stringify {T} (data : JsVal) (indent : Z) : M T JsVal :=
  fun this s => mkRun (json_stringify E data indent) this s [].

(** [module.member(...args)]: a member the module does not have is
    [undefined], and calling it is a TypeError raised by the language
    before anything reaches the engine. *)
Definition call_static {T} (module member : string) (args : list JsVal)
  : M T JsVal :=
  if has_member module member
  then perform (Static module member args)
  else throw (TypeError (module ++ "." ++ member ++ " is not a function")).

(** [expr.member(...args)], with [recv] the value of [expr]: on an engine
    object or a locator this is an engine call; on [null] or [undefined]
    the property read throws; any other value has no such method. *)
Definition call_method {T} (expr : string) (recv : JsVal) (member : string)
           (args : list JsVal) : M T JsVal :=
  if is_engine_object recv
  then perform (Method recv member args)
  else throw (no_method_error expr recv member).

(** [page.locator(selector, { hasText })]: synchronous; it builds the
    locator and asks the browser nothing. *)
Definition locator {T} (page : JsVal) (selector : string)
           (hasText : option string) : M T JsVal :=
  match handle_of page with
  | Some h => ret (VLocator h selector hasText)
  | None => throw (no_method_error "this.page" page "locator")
  end.

(** An async method called and not awaited: its body runs up to its first
    suspension, which for the one method called this way ([pathExist]) is
    its end, and the caller holds the promise. *)
Definition promise_of {T} (m : M T JsVal) : M T JsVal :=
  fun this s =>
    match m this s with
    | mkRun (Normal v) this1 s1 ev1 => mkRun (Normal (VPromise false v)) this1 s1 ev1
    | mkRun (Throw e) this1 s1 ev1 => mkRun (Normal (VPromise true e)) this1 s1 ev1
    end.
End Monad.

Arguments mkRun {E T A}.
Arguments completion {E T A}.
Arguments this_after {E T A}.
Arguments env_after {E T A}.
Arguments events {E T A}.
Arguments M E T A : clear implicits.

Declare Scope js_scope.
Delimit Scope js_scope with js.
Notation "x <- m ;; k" := (bind m (fun x => k))
  (at level 100, m at next level, right associativity) : js_scope.
Notation "m ;; k" := (bind m (fun _ => k))
  (at level 100, right associativity) : js_scope.

(** A parameter with a default value: [f(x = d)]. *)
Definition default {A} (d : A) (arg : option A) : A :=
  match arg with Some a => a | None => d end.

(** ** FileManager (src/FileManager.js, lines 1-161) *)

Module FileManager.
Section WithEngine.
Context {E : Engine}.
Local Open Scope js_scope.

(** [const fs = require('fs').promises;] *)
Definition fs : string := "fs".

Definition createDirectory (dirPath : string) (recursive : option bool)
  : M E unit JsVal :=
  let recursive := default false recursive in
  try_catch
    (_ <- call_static fs "mkdir"
            [VStr dirPath; VRecord [("recursive", VBool recursive)]] ;;
     console LvlLog
       [VStr ("directory already exist or it was created: " ++ dirPath)] ;;
     ret VUndefined)
    (fun error =>
       console LvlError
         [VStr ("Error creating directory " ++ dirPath ++ ": " ++ to_str error)] ;;
       throw error).

Definition pathExist (path : string) : M E unit JsVal :=
  try_catch
    (call_static fs "existsSync" [VStr path])
    (fun error =>
       console LvlError
         [VStr ("Error verifying existance of path " ++ path ++ ": "
                ++ to_str error)] ;;
       throw error).

Definition deletePath (path : string) (recursive : option bool)
  : M E unit JsVal :=
  let recursive := default false recursive in
  try_catch
    (exists_ <- promise_of (pathExist path) ;;
     (if truthy exists_
      then
        _ <- call_static fs "rm"
               [VStr path; VRecord [("recursive", VBool recursive)]] ;;
        console LvlLog [VStr ("Deleted path: " ++ path)]
      else
        console LvlWarn
          [VStr ("Non-existing path can't be removed: " ++ path)]) ;;
     ret VUndefined)
    (fun error =>
       console LvlError
         [VStr ("Error deleting " ++ path ++ ": " ++ to_str error)] ;;
       throw error).

Definition deleteDirectory (dirPath : string) : M E unit JsVal :=
  deletePath dirPath (Some true).

Definition directoryExists (dirPath : string) : M E unit JsVal :=
  pathExist dirPath.

Definition readFile (filePath : string) (options : JsVal) : M E unit JsVal :=
  try_catch
    (data <- call_static fs "readFile" [VStr filePath; options] ;;
     console LvlLog [VStr ("Read file at path: " ++ filePath)] ;;
     ret data)
    (fun error =>
       (if strict_eq_str (get_prop error "code") "ENOENT"
        then console LvlError [VStr "File not found:"; get_prop error "message"]
        else console LvlError [VStr "Error reading file:"; error]) ;;
       throw error).

Definition writeFile (filePath : string) (data : JsVal) : M E unit JsVal :=
  try_catch
    (_ <- call_static fs "writeFile" [VStr filePath; data] ;;
     console LvlLog [VStr ("Wrote data to file at: " ++ filePath)] ;;
     ret VUndefined)
    (fun error =>
       console LvlError
         [VStr ("Error writing file at " ++ filePath ++ ": " ++ to_str error)] ;;
       throw error).

Definition appendToFile (filePath : string) (data : JsVal) : M E unit JsVal :=
  try_catch
    (_ <- call_static fs "appendFile" [VStr filePath; data] ;;
     console LvlLog [VStr ("Appended data to file at path: " ++ filePath)] ;;
     ret VUndefined)
    (fun error =>
       console LvlError
         [VStr ("Error appending to file " ++ filePath ++ ": " ++ to_str error)] ;;
       throw error).

Definition deleteFile (filePath : string) : M E unit JsVal :=
  deletePath filePath None.

Definition fileExists (filePath : string) : M E unit JsVal :=
  pathExist filePath.

Definition saveJson (filePath : string) (data prettyPrint : JsVal)
  : M E unit JsVal :=
  try_catch
    (data <- (if truthy prettyPrint then stringify data 2 else ret data) ;;
     _ <- call_static fs "writeFile" [VStr filePath; data] ;;
     console LvlLog [VStr ("JSON file saved at path " ++ filePath)] ;;
     ret VUndefined)
    (fun error =>
       console LvlError
         [VStr ("Error saving JSON file " ++ filePath ++ ": " ++ to_str error)] ;;
       throw error).
End WithEngine.
End FileManager.

(** ** Double arithmetic

    JavaScript numbers are IEEE 754 binary64 values, and [*], [+], [-] on
    them round the exact result to the nearest one, ties to the even
    significand.  A finite double is held here as the rational it denotes
    (in lowest terms); the sign of zero is not kept. *)
Module Double.

Inductive t : Type :=
| Finite (q : Q)
| Infinite (negative : bool)
| NotANumber.

(** [a / b] divided by [2 ^ k], as a fraction (for [b > 0]). *)
Definition scale (a b k : Z) : Z * Z :=
  if 0 <=? k then (a, b * 2 ^ k) else (a * 2 ^ (- k), b).

(** The integer [l] with [2 ^ l <= a / b < 2 ^ (l + 1)], for [a, b > 0]. *)
Definition floor_log2 (a b : Z) : Z :=
  let l := Z.log2 a - Z.log2 b in
  if snd (scale a b l) <=? fst (scale a b l) then l else l - 1.

(** The integer nearest to [n / d] (for [d > 0]), the even one of the two
    when [n / d] is half way. *)
Definition nearest_even (n d : Z) : Z :=
  let q := n / d in
  match 2 * (n mod d) ?= d with
  | Lt => q
  | Gt => q + 1
  | Eq => if Z.even q then q else q + 1
  end.

(** [m * 2 ^ e], in lowest terms. *)
Definition value (m e : Z) : Q :=
  if 0 <=? e then inject_Z (m * 2 ^ e)
  else Qred (m # Z.to_pos (2 ^ (- e))).

(** The double nearest to [a / b], for [a, b > 0]: a significand of 53 bits
    (fewer below [2 ^ -1022], where the exponent stays at -1074), and
    infinity from [2 ^ 1024] on. *)
Definition round_pos (a b : Z) : t :=
  let e := Z.max (-1074) (floor_log2 a b - 52) in
  let m := nearest_even (fst (scale a b e)) (snd (scale a b e)) in
  if (0 <=? e) && (2 ^ 1024 <=? m * 2 ^ e)
  then Infinite false
  else Finite (value m e).

Definition neg (x : t) : t :=
  match x with
  | Finite q => Finite (- q)
  | Infinite negative => Infinite (negb negative)
  | NotANumber => NotANumber
  end.

(** The double nearest to a rational. *)
Definition round (x : Q) : t :=
  match Qnum (Qred x) with
  | Z0 => Finite 0
  | Zpos a => round_pos (Zpos a) (Zpos (Qden (Qred x)))
  | Zneg a => neg (round_pos (Zpos a) (Zpos (Qden (Qred x))))
  end.

(** The rationals that are doubles. *)
Definition representable (x : Q) : bool :=
  match round x with
  | Finite q => Qeq_bool q x
  | _ => false
  end.

Definition is_negative (q : Q) : bool := Qnum q <? 0.
Definition is_zero (q : Q) : bool := Qnum q =? 0.

(** [x * y] *)
Definition mul (x y : t) : t :=
  match x, y with
  | NotANumber, _ | _, NotANumber => NotANumber
  | Infinite s, Infinite s' => Infinite (xorb s s')
  | Infinite s, Finite q | Finite q, Infinite s =>
      if is_zero q then NotANumber else Infinite (xorb s (is_negative q))
  | Finite p, Finite q => round (p * q)
  end.

(** [x + y] *)
Definition add (x y : t) : t :=
  match x, y with
  | NotANumber, _ | _, NotANumber => NotANumber
  | Infinite s, Infinite s' => if Bool.eqb s s' then Infinite s else NotANumber
  | Infinite s, Finite _ | Finite _, Infinite s => Infinite s
  | Finite p, Finite q => round (p + q)
  end.

(** [x - y] *)
Definition sub (x y : t) : t := add x (neg y).

(** [Math.floor(x)] *)
Definition floor (x : t) : t :=
  match x with
  | Finite q => Finite (inject_Z (Qfloor q))
  | _ => x
  end.

(** The number an integer is as a JavaScript value: itself up to
    [2 ^ 53], the nearest double beyond. *)
Definition of_Z (z : Z) : t := round (inject_Z z).

(** A double with no fractional part, as a number. *)
Definition to_number (x : t) : JsNumber :=
  match x with
  | Finite q => Int (Qfloor q)
  | Infinite negative => Infinity negative
  | NotANumber => NaN
  end.
End Double.

(** ** PageHandler (src/FileManager.js, lines 1158-1361) *)

Module PageHandler.

(** [constructor(page) { this.page = page; }], with [page] a Playwright
    Page as the class documents it ([@property {import('playwright').Page}
    page]). *)
Record PageHandler : Type := new { page : Handle }.

(** The line feed of the template literals that end in one. *)
Definition nl : string := String (ascii_of_nat 10) EmptyString.

(** [Math.floor(Math.random() * (waitMax - waitMin + 1)) + waitMin], with
    [r] the value of [Math.random()], computed as the program computes it:
    every operation on doubles, rounding where the exact result is no
    double. *)
Definition waitTime (r : Q) (waitMin waitMax : Z) : JsNumber :=
  let waitMin := Double.of_Z waitMin in
  let waitMax := Double.of_Z waitMax in
  Double.to_number
    (Double.add
       (Double.floor
          (Double.mul (Double.Finite r)
                      (Double.add (Double.sub waitMax waitMin) (Double.of_Z 1))))
       waitMin).
Arguments waitTime : simpl never.

(** [options = { waitUntil: 'load' }] *)
Definition waitUntilLoad : JsVal := VRecord [("waitUntil", VStr "load")].

Section WithEngine.
Context {E : Engine}.
Local Open Scope js_scope.

Definition waitForRandomTimeout (waitMin waitMax : option Z)
  : M E PageHandler JsVal :=
  let waitMin := default 5000 waitMin in
  let waitMax := default 12000 waitMax in
  r <- random ;;
  this <- get_this ;;
  _ <- call_method "this.page" (VObject (page this)) "waitForTimeout"
         [VNum (waitTime r waitMin waitMax)] ;;
  ret VUndefined.

Definition goToUrl (url : string) (options : option JsVal)
           (waitMin waitMax : option Z) : M E PageHandler JsVal :=
  let options := default waitUntilLoad options in
  let waitMin := default 4000 waitMin in
  let waitMax := default 7000 waitMax in
  try_catch
    (console LvlLog [VStr ("Goto: " ++ url ++ nl)] ;;
     this <- get_this ;;
     _ <- call_method "this.page" (VObject (page this)) "goto" [VStr url; options] ;;
     _ <- waitForRandomTimeout (Some waitMin) (Some waitMax) ;;
     ret VUndefined)
    (fun error =>
       console LvlError
         [VStr ("Error going to url: " ++ url ++ ", error: " ++ to_str error)] ;;
       throw error).

Definition goBack (options : option JsVal) (waitMin waitMax : option Z)
  : M E PageHandler JsVal :=
  let options := default waitUntilLoad options in
  let waitMin := default 4000 waitMin in
  let waitMax := default 7000 waitMax in
  try_catch
    (console LvlLog [VStr ("Go Back" ++ nl)] ;;
     this <- get_this ;;
     _ <- call_method "this.page" (VObject (page this)) "goBack" [options] ;;
     _ <- waitForRandomTimeout (Some waitMin) (Some waitMax) ;;
     ret VUndefined)
    (fun error =>
       console LvlError [VStr ("Error going back: " ++ to_str error)] ;;
       throw error).

Definition goForward (options : option JsVal) (waitMin waitMax : option Z)
  : M E PageHandler JsVal :=
  let options := default waitUntilLoad options in
  let waitMin := default 4000 waitMin in
  let waitMax := default 7000 waitMax in
  try_catch
    (this <- get_this ;;
     _ <- call_method "this.page" (VObject (page this)) "goForward" [options] ;;
     _ <- waitForRandomTimeout (Some waitMin) (Some waitMax) ;;
     console LvlLog [VStr "Go Forward"] ;;
     ret VUndefined)
    (fun error =>
       console LvlError [VStr ("Error going forward: " ++ to_str error)] ;;
       throw error).

Definition reloadPage (options : option JsVal) (waitMin waitMax : option Z)
  : M E PageHandler JsVal :=
  let options := default waitUntilLoad options in
  let waitMin := default 4000 waitMin in
  let waitMax := default 7000 waitMax in
  try_catch
    (this <- get_this ;;
     _ <- call_method "this.page" (VObject (page this)) "reload" [options] ;;
     _ <- waitForRandomTimeout (Some waitMin) (Some waitMax) ;;
     console LvlLog [VStr ("Reloaded Page" ++ nl)] ;;
     ret VUndefined)
    (fun error =>
       console LvlError [VStr ("Error reloading page: " ++ to_str error)] ;;
       throw error).

Definition getElements (selector : string) : M E PageHandler JsVal :=
  try_catch
    (this <- get_this ;;
     loc <- locator (VObject (page this)) selector None ;;
     call_method "this.page.locator(...)" loc "all" [])
    (fun error =>
       console LvlError
         [VStr ("Error getting elements with selector " ++ selector
                ++ ", error: " ++ to_str error)] ;;
       throw error).

Definition getElementText (selectorOrLocator : JsVal) : M E PageHandler JsVal :=
  try_catch
    (match as_string selectorOrLocator with
     | Some selector =>
         this <- get_this ;;
         loc <- locator (VObject (page this)) selector None ;;
         call_method "this.page.locator(...)" loc "textContent" []
     | None => call_method "selectorOrLocator" selectorOrLocator "textContent" []
     end)
    (fun error =>
       console LvlError
         [VStr ("Error getting element text with selector "
                ++ to_str selectorOrLocator ++ ": " ++ to_str error)] ;;
       ret VNull).

Definition getElementAttribute (selectorOrLocator : JsVal)
           (attributeName : string) : M E PageHandler JsVal :=
  try_catch
    (call_method "selectorOrLocator" selectorOrLocator "getAttribute" [VStr attributeName])
    (fun error =>
       console LvlError
         [VStr ("Error getting element attribute: " ++ attributeName)] ;;
       throw error).

Definition clickAndWait (selectorOrLocator : JsVal)
           (waitMin waitMax : option Z) : M E PageHandler JsVal :=
  let waitMin := default 3000 waitMin in
  let waitMax := default 7000 waitMax in
  try_catch
    (match as_string selectorOrLocator with
     | Some selector =>
         this <- get_this ;;
         loc <- locator (VObject (page this)) selector None ;;
         call_method "this.page.locator(...)" loc "click" []
     | None => call_method "selectorOrLocator" selectorOrLocator "click" []
     end ;;
     _ <- waitForRandomTimeout (Some waitMin) (Some waitMax) ;;
     console LvlLog [VStr "Clicked element"] ;;
     ret VUndefined)
    (fun error =>
       console LvlError [VStr ("Error clicking element: " ++ to_str error)] ;;
       throw error).

Definition typeText (selectorOrLocator : JsVal) (text : string)
           (waitMin waitMax : option Z) (throwOnError : option bool)
  : M E PageHandler JsVal :=
  let waitMin := default 3000 waitMin in
  let waitMax := default 8000 waitMax in
  let throwOnError := default true throwOnError in
  selectorOrLocator <-
    match as_string selectorOrLocator with
    | Some selector =>
        this <- get_this ;;
        locator (VObject (page this)) selector None
    | None => ret selectorOrLocator
    end ;;
  try_catch
    (_ <- call_method "selectorOrLocator" selectorOrLocator "fill" [VStr text] ;;
     _ <- waitForRandomTimeout (Some waitMin) (Some waitMax) ;;
     console LvlLog [VStr ("Filled input element with: " ++ text)] ;;
     ret (VBool true))
    (fun error =>
       if throwOnError
       then
         console LvlError [VStr ("Error filling element: " ++ to_str error)] ;;
         throw error
       else
         console LvlWarn
           [VStr ("Warning: Could not fill element (likely not an input element): "
                  ++ to_str (get_prop error "message"))] ;;
         ret (VBool false)).

Definition clickElemenWithText (selector elementText : string)
           (waitMin waitMax : option Z) : M E PageHandler JsVal :=
  let waitMin := default 3000 waitMin in
  let waitMax := default 7000 waitMax in
  try_catch
    (this <- get_this ;;
     loc <- locator (VObject (page this)) selector (Some elementText) ;;
     _ <- call_method "this.page.locator(...)" loc "click" [] ;;
     _ <- waitForRandomTimeout (Some waitMin) (Some waitMax) ;;
     console LvlLog [VStr ("Clicked element with text: " ++ elementText)] ;;
     ret VUndefined)
    (fun error =>
       console LvlError
         [VStr ("Error clicking element with text: " ++ elementText
                ++ ", error: " ++ elementText)] ;;
       throw error).
End WithEngine.
End PageHandler.

(** ** BrowserManager (src/BrowserManager.js) *)

Module BrowserManager.

Record BrowserManager : Type := mk {
  browser : JsVal;
  context : JsVal;
  page : JsVal
}.

(** [constructor()] *)
Definition new : BrowserManager := mk VNull VNull VNull.

Section WithEngine.
Context {E : Engine}.
Local Open Scope js_scope.

(** [this.browser = v], [this.context = v], [this.page = v] *)
Definition assign_browser (v : JsVal) : M E BrowserManager unit :=
  this <- get_this ;; set_this (mk v (context this) (page this)).
Definition assign_context (v : JsVal) : M E BrowserManager unit :=
  this <- get_this ;; set_this (mk (browser this) v (page this)).
Definition assign_page (v : JsVal) : M E BrowserManager unit :=
  this <- get_this ;; set_this (mk (browser this) (context this) v).

Definition chromium : string := "chromium".

Definition launchBrowser (launchOptions : JsVal) (contextOptions : option JsVal)
  : M E BrowserManager JsVal :=
  let contextOptions := default (VRecord []) contextOptions in
  try_catch
    (b <- call_static chromium "launch" [launchOptions] ;;
     assign_browser b ;;
     this <- get_this ;;
     c <- call_method "this.browser" (browser this) "newContext" [contextOptions] ;;
     assign_context c ;;
     this <- get_this ;;
     p <- call_method "this.context" (context this) "newPage" [] ;;
     assign_page p ;;
     console LvlLog [VStr "Browser Launched"] ;;
     this <- get_this ;;
     ret (page this))
    (fun error =>
       console LvlError [VStr "Error launching browser: "; error] ;;
       throw error).

Definition connectOverCDP (endpoint : string) (contextIndex : option Z)
  : M E BrowserManager JsVal :=
  let contextIndex := default 0 contextIndex in
  try_catch
    (b <- call_static chromium "connectOverCDP" [VStr endpoint] ;;
     assign_browser b ;;
     this <- get_this ;;
     contexts <- call_method "this.browser" (browser this) "contexts" [] ;;
     assign_context (array_at contexts contextIndex) ;;
     this <- get_this ;;
     p <- call_method "this.context" (context this) "newPage" [] ;;
     assign_page p ;;
     console LvlLog
       [VStr ("Connected to endpoint: " ++ endpoint ++ ", context index: "
              ++ Z_to_string contextIndex)] ;;
     this <- get_this ;;
     ret (page this))
    (fun error =>
       console LvlError
         [VStr ("Error connecting to endpoint " ++ endpoint ++ ": "); error] ;;
       throw error).

Definition newContext (contextOptions : JsVal) : M E BrowserManager JsVal :=
  try_catch
    (this <- get_this ;;
     (if negb (truthy (context this))
      then
        c <- call_method "this.browser" (browser this) "newContext" [contextOptions] ;;
        assign_context c ;;
        console LvlLog [VStr "New Context Created"]
      else
        console LvlWarn
          [VStr "Current Context needs to close before creating a new one"]) ;;
     this <- get_this ;;
     ret (context this))
    (fun error =>
       console LvlError [VStr "Error creating context: "; error] ;;
       throw error).

Definition newPage (isolatePage : option bool) : M E BrowserManager JsVal :=
  let isolatePage := default false isolatePage in
  try_catch
    (if isolatePage
     then
       console LvlLog [VStr "Creating new isolated page"] ;;
       this <- get_this ;;
       call_method "this.context" (context this) "newPage" []
     else
       this <- get_this ;;
       p <- call_method "this.context" (context this) "newPage" [] ;;
       assign_page p ;;
       console LvlLog [VStr "New Page Created"] ;;
       this <- get_this ;;
       ret (page this))
    (fun error =>
       console LvlError [VStr "Error creating new page: "; error] ;;
       throw error).

Definition closeContext : M E BrowserManager JsVal :=
  try_catch
    (this <- get_this ;;
     (if truthy (context this)
      then
        _ <- call_method "this.context" (context this) "close" [] ;;
        console LvlLog [VStr "Closed Context"]
      else ret tt) ;;
     ret VUndefined)
    (fun error =>
       console LvlError [VStr "Error closing context: "; error] ;;
       ret VUndefined).

Definition closeBrowser : M E BrowserManager JsVal :=
  try_catch
    (this <- get_this ;;
     (if truthy (browser this)
      then
        _ <- closeContext ;;
        this <- get_this ;;
        _ <- call_method "this.browser" (browser this) "close" [] ;;
        console LvlLog [VStr "Closed Browser"]
      else ret tt) ;;
     ret VUndefined)
    (fun error =>
       console LvlError [VStr "Error closing browser: "; error] ;;
       ret VUndefined).
End WithEngine.
End BrowserManager.

(** ** The public operations, as one type *)

Inductive FileOp : Type :=
| CreateDirectory (dirPath : string) (recursive : option bool)
| DeleteDirectory (dirPath : string)
| DirectoryExists (dirPath : string)
| ReadFile (filePath : string) (options : JsVal)
| WriteFile (filePath : string) (data : JsVal)
| AppendToFile (filePath : string) (data : JsVal)
| DeleteFile (filePath : string)
| FileExists (filePath : string)
| SaveJson (filePath : string) (data prettyPrint : JsVal)
| DeletePath (path : string) (recursive : option bool)
| PathExist (path : string).

Inductive PageOp : Type :=
| GoToUrl (url : string) (options : option JsVal) (waitMin waitMax : option Z)
| GoBack (options : option JsVal) (waitMin waitMax : option Z)
| GoForward (options : option JsVal) (waitMin waitMax : option Z)
| ReloadPage (options : option JsVal) (waitMin waitMax : option Z)
| WaitForRandomTimeout (waitMin waitMax : option Z)
| GetElements (selector : string)
| GetElementText (selectorOrLocator : JsVal)
| GetElementAttribute (selectorOrLocator : JsVal) (attributeName : string)
| ClickAndWait (selectorOrLocator : JsVal) (waitMin waitMax : option Z)
| TypeText (selectorOrLocator : JsVal) (text : string)
           (waitMin waitMax : option Z) (throwOnError : option bool)
| ClickElemenWithText (selector elementText : string) (waitMin waitMax : option Z).

Inductive BrowserOp : Type :=
| LaunchBrowser (launchOptions : JsVal) (contextOptions : option JsVal)
| ConnectOverCDP (endpoint : string) (contextIndex : option Z)
| NewContext (contextOptions : JsVal)
| NewPage (isolatePage : option bool)
| CloseContext
| CloseBrowser.

(** A call of a public method on an object in a given state. *)
Inductive Operation : Type :=
| OnFileManager (op : FileOp)
| OnPageHandler (this : PageHandler.PageHandler) (op : PageOp)
| OnBrowserManager (this : BrowserManager.BrowserManager) (op : BrowserOp).

Section Operations.
Context {E : Engine}.

Definition file_op (op : FileOp) : M E unit JsVal :=
  match op with
  | CreateDirectory dirPath recursive => FileManager.createDirectory dirPath recursive
  | DeleteDirectory dirPath => FileManager.deleteDirectory dirPath
  | DirectoryExists dirPath => FileManager.directoryExists dirPath
  | ReadFile filePath options => FileManager.readFile filePath options
  | WriteFile filePath data => FileManager.writeFile filePath data
  | AppendToFile filePath data => FileManager.appendToFile filePath data
  | DeleteFile filePath => FileManager.deleteFile filePath
  | FileExists filePath => FileManager.fileExists filePath
  | SaveJson filePath data prettyPrint => FileManager.saveJson filePath data prettyPrint
  | DeletePath path recursive => FileManager.deletePath path recursive
  | PathExist path => FileManager.pathExist path
  end.

Definition page_op (op : PageOp) : M E PageHandler.PageHandler JsVal :=
  match op with
  | GoToUrl url options waitMin waitMax =>
      PageHandler.goToUrl url options waitMin waitMax
  | GoBack options waitMin waitMax => PageHandler.goBack options waitMin waitMax
  | GoForward options waitMin waitMax => PageHandler.goForward options waitMin waitMax
  | ReloadPage options waitMin waitMax => PageHandler.reloadPage options waitMin waitMax
  | WaitForRandomTimeout waitMin waitMax =>
      PageHandler.waitForRandomTimeout waitMin waitMax
  | GetElements selector => PageHandler.getElements selector
  | GetElementText selectorOrLocator => PageHandler.getElementText selectorOrLocator
  | GetElementAttribute selectorOrLocator attributeName =>
      PageHandler.getElementAttribute selectorOrLocator attributeName
  | ClickAndWait selectorOrLocator waitMin waitMax =>
      PageHandler.clickAndWait selectorOrLocator waitMin waitMax
  | TypeText selectorOrLocator text waitMin waitMax throwOnError =>
      PageHandler.typeText selectorOrLocator text waitMin waitMax throwOnError
  | ClickElemenWithText selector elementText waitMin waitMax =>
      PageHandler.clickElemenWithText selector elementText waitMin waitMax
  end.

Definition browser_op (op : BrowserOp) : M E BrowserManager.BrowserManager JsVal :=
  match op with
  | LaunchBrowser launchOptions contextOptions =>
      BrowserManager.launchBrowser launchOptions contextOptions
  | ConnectOverCDP endpoint contextIndex =>
      BrowserManager.connectOverCDP endpoint contextIndex
  | NewContext contextOptions => BrowserManager.newContext contextOptions
  | NewPage isolatePage => BrowserManager.newPage isolatePage
  | CloseContext => BrowserManager.closeContext
  | CloseBrowser => BrowserManager.closeBrowser
  end.

(** What the caller of an operation sees: how the returned promise
    settled, and the events on the way. *)
Definition outcome (o : Operation) (s : env_state E) : Completion JsVal :=
  match o with
  | OnFileManager op => completion (file_op op tt s)
  | OnPageHandler this op => completion (page_op op this s)
  | OnBrowserManager this op => completion (browser_op op this s)
  end.

Definition trace (o : Operation) (s : env_state E) : list Event :=
  match o with
  | OnFileManager op => events (file_op op tt s)
  | OnPageHandler this op => events (page_op op this s)
  | OnBrowserManager this op => events (browser_op op this s)
  end.

(** The state the engine is left in. *)
Definition engine_after (o : Operation) (s : env_state E) : env_state E :=
  match o with
  | OnFileManager op => env_after (file_op op tt s)
  | OnPageHandler this op => env_after (page_op op this s)
  | OnBrowserManager this op => env_after (browser_op op this s)
  end.
End Operations.

(** The engine calls of a trace, in order, each with its completion. *)
Fixpoint engine_calls (t : list Event) : list (EngineCall * Completion JsVal) :=
  match t with
  | [] => []
  | ECall c r :: t' => (c, r) :: engine_calls t'
  | EConsole _ _ :: t' => engine_calls t'
  end.

(** The console lines of a trace printed at one level. *)
Fixpoint console_lines (lvl : Level) (t : list Event) : list (list JsVal) :=
  match t with
  | [] => []
  | EConsole LvlLog args :: t' =>
      match lvl with LvlLog => args :: console_lines lvl t' | _ => console_lines lvl t' end
  | EConsole LvlWarn args :: t' =>
      match lvl with LvlWarn => args :: console_lines lvl t' | _ => console_lines lvl t' end
  | EConsole LvlError args :: t' =>
      match lvl with LvlError => args :: console_lines lvl t' | _ => console_lines lvl t' end
  | ECall _ _ :: t' => console_lines lvl t'
  end.

Definition is_normal {A} (r : Completion A) : bool :=
  match r with Normal _ => true | Throw _ => false end.

(** [page.waitForTimeout(ms)] *)
Definition is_wait (c : EngineCall) : bool :=
  match c with
  | Method _ member _ => (member =? "waitForTimeout")%string
  | Static _ _ _ => false
  end.

(** ** A scripted engine

    An engine that answers the calls it receives from a list, in order, and
    [Math.random()] from another; once a list is used up it answers
    [undefined], respectively [0].  It is the engine of the examples. *)
Module Scripted.
Record State : Type := mk { answers : list (Completion JsVal); draws : list Q }.

Definition call (_ : EngineCall) (s : State) : Completion JsVal * State :=
  match answers s with
  | [] => (Normal VUndefined, s)
  | a :: rest => (a, mk rest (draws s))
  end.

Definition draw (s : State) : Q * State :=
  match draws s with
  | [] => (0%Q, s)
  | r :: rest => (r, mk (answers s) rest)
  end.

Definition engine : Engine :=
  {| env_state := State;
     engine_call := call;
     math_random := draw;
     json_stringify := fun data _ => Normal (VStr (to_str data)) |}.
End Scripted.

(** ** An engine with a DOM *)

(** Modelled from the spec: the automation engine is a third-party library
    and no part of it is in the repository, so what a Locator is comes from
    the glossary: "a lazily-resolved reference to zero-or-more DOM elements,
    re-queried at the time of each action".  The state of this engine is the
    document of the page; a locator action queries the document of the
    moment for the elements that match, and acts when there is exactly one
    (no element is the engine's timeout, several are its strictness
    error). *)
Module Dom.
Record Element : Type := mkElement {
  selectors : list string;           (* the selectors the element matches *)
  textContent : string;
  attributes : list (string * string);
  editable : bool;                   (* an input, a textarea *)
  value : string;
  clicks : nat
}.

Definition Document := list Element.

Definition contains (needle text : string) : bool :=
  match String.index 0 needle text with Some _ => true | None => false end.

Definition matches (selector : string) (hasText : option string)
           (el : Element) : bool :=
  existsb (String.eqb selector) (selectors el)
  && match hasText with
     | None => true
     | Some t => contains t (textContent el)
     end.

(** Modelled from the spec: "a lazily-resolved reference to zero-or-more DOM
    elements"; the elements a locator resolves to in a document. *)
Definition query (d : Document) (selector : string) (hasText : option string)
  : list Element :=
  filter (matches selector hasText) d.

Definition getAttribute (name : string) (el : Element) : JsVal :=
  match find (fun kv => (fst kv =? name)%string) (attributes el) with
  | Some kv => VStr (snd kv)
  | None => VNull
  end.

Definition click (el : Element) : Element :=
  mkElement (selectors el) (textContent el) (attributes el) (editable el)
            (value el) (S (clicks el)).

Definition fill (text : string) (el : Element) : Element :=
  mkElement (selectors el) (textContent el) (attributes el) (editable el)
            text (clicks el).

(** The document with [f] applied to the elements the locator matches. *)
Definition update (selector : string) (hasText : option string)
           (f : Element -> Element) (d : Document) : Document :=
  map (fun el => if matches selector hasText el then f el else el) d.

Definition TimeoutError : JsVal :=
  VError "TimeoutError" None "Timeout 30000ms exceeded.".
Definition StrictModeViolation : JsVal :=
  VError "Error" None "strict mode violation".
Definition NotAnInput : JsVal :=
  VError "Error" None "Element is not an <input>, <textarea> or <select> element".

(** A locator action on the one element [el] it resolved to. *)
Definition act_on (el : Element) (selector : string) (hasText : option string)
           (member : string) (args : list JsVal) (d : Document)
  : Completion JsVal * Document :=
  if (member =? "textContent")%string then (Normal (VStr (textContent el)), d)
  else if (member =? "getAttribute")%string then
    match args with
    | [VStr name] => (Normal (getAttribute name el), d)
    | _ => (Normal VNull, d)
    end
  else if (member =? "click")%string then
    (Normal VUndefined, update selector hasText click d)
  else if (member =? "fill")%string then
    match args with
    | [VStr text] =>
        if editable el
        then (Normal VUndefined, update selector hasText (fill text) d)
        else (Throw NotAnInput, d)
    | _ => (Throw NotAnInput, d)
    end
  else (Normal VUndefined, d).

(** Modelled from the spec: "re-queried at the time of each action"; a
    locator action runs the query on the document it is given. *)
Definition call (c : EngineCall) (d : Document) : Completion JsVal * Document :=
  match c with
  | Method (VLocator _ selector hasText) member args =>
      match query d selector hasText with
      | [] => (Throw TimeoutError, d)
      | [el] => act_on el selector hasText member args d
      | _ => (Throw StrictModeViolation, d)
      end
  | _ => (Normal VUndefined, d)
  end.

Definition engine : Engine :=
  {| env_state := Document;
     engine_call := call;
     math_random := fun d => (0%Q, d);
     json_stringify := fun data _ => Normal (VStr (to_str data)) |}.
End Dom.

(** ** The spec's reading of the operations

    The definitions of this part follow the words of the specification, to
    be compared with the operations above. *)


(** The engine call an operation stands for, for the operations that consist
    of one call on the arguments they were given; the flag tells whether the
    operation returns the value of the call ([true]) or [undefined]. *)
Definition wrapped_call (o : Operation) : option (EngineCall * bool) :=
  match o with
  | OnFileManager (CreateDirectory dirPath recursive) =>
      Some (Static "fs" "mkdir"
              [VStr dirPath; VRecord [("recursive", VBool (default false recursive))]],
            false)
  | OnFileManager (ReadFile filePath options) =>
      Some (Static "fs" "readFile" [VStr filePath; options], true)
  | OnFileManager (WriteFile filePath data) =>
      Some (Static "fs" "writeFile" [VStr filePath; data], false)
  | OnFileManager (AppendToFile filePath data) =>
      Some (Static "fs" "appendFile" [VStr filePath; data], false)
  | OnPageHandler _ (GetElementAttribute selectorOrLocator attributeName) =>
      if is_engine_object selectorOrLocator
      then Some (Method selectorOrLocator "getAttribute" [VStr attributeName], true)
      else None
  | _ => None
  end.

(** The failed call [c] is followed at once by a console line at level
    [lvl]. *)
Definition failure_printed {E : Engine} (lvl : Level) (o : Operation)
           (s : env_state E) (c : EngineCall) (e : JsVal) : Prop :=
  exists pre args post,
    trace o s = (pre ++ ECall c (Throw e) :: EConsole lvl args :: post)%list.

(** "Logs the error and re-throws it": when an engine call of the operation
    fails with [e], the operation prints a [console.error] line and throws
    [e]. *)
Definition logs_and_rethrows (E : Engine) (o : Operation) : Prop :=
  forall (s : env_state E) (c : EngineCall) (e : JsVal),
    In (c, Throw e) (engine_calls (trace o s)) ->
    outcome o s = Throw e /\ failure_printed LvlError o s c e.

(** What an operation does with the error of a failed engine call: print it
    with [console.error] and throw it again; print it with [console.error]
    and return a value; print a [console.warn] line and return a value; or
    let it through without a catch. *)
Inductive FailurePolicy : Type :=
| LogAndRethrow
| LogAndReturn (v : JsVal)
| WarnAndReturn (v : JsVal)
| LetThrough.

Definition failure_policy (o : Operation) : FailurePolicy :=
  match o with
  | OnPageHandler _ (GetElementText _) => LogAndReturn VNull
  | OnPageHandler _ (TypeText _ _ _ _ (Some false)) => WarnAndReturn (VBool false)
  | OnPageHandler _ (WaitForRandomTimeout _ _) => LetThrough
  | OnBrowserManager _ CloseContext => LogAndReturn VUndefined
  | OnBrowserManager _ CloseBrowser => LogAndReturn VUndefined
  | _ => LogAndRethrow
  end.

(** "No wrapper operation introduces any waiting of its own": no engine
    call of the operation is a [waitForTimeout]. *)
Definition adds_no_wait (E : Engine) (o : Operation) : Prop :=
  forall (s : env_state E) (c : EngineCall) (r : Completion JsVal),
    In (c, r) (engine_calls (trace o s)) -> is_wait c = false.

(** Whether an operation pauses: not at all, or by one random wait on
    [page] between [lo] and [hi] milliseconds, run after its engine call, or
    it is the random wait itself. *)
Inductive WaitPolicy : Type :=
| NoWait
| WaitAfterCall (page : Handle) (lo hi : Z)
| TheWait.

Definition wait_policy (o : Operation) : WaitPolicy :=
  match o with
  | OnPageHandler this (GoToUrl _ _ waitMin waitMax)
  | OnPageHandler this (GoBack _ waitMin waitMax)
  | OnPageHandler this (GoForward _ waitMin waitMax)
  | OnPageHandler this (ReloadPage _ waitMin waitMax) =>
      WaitAfterCall (PageHandler.page this)
                    (default 4000 waitMin) (default 7000 waitMax)
  | OnPageHandler this (ClickAndWait _ waitMin waitMax)
  | OnPageHandler this (ClickElemenWithText _ _ waitMin waitMax) =>
      WaitAfterCall (PageHandler.page this)
                    (default 3000 waitMin) (default 7000 waitMax)
  | OnPageHandler this (TypeText _ _ waitMin waitMax _) =>
      WaitAfterCall (PageHandler.page this)
                    (default 3000 waitMin) (default 8000 waitMax)
  | OnPageHandler _ (WaitForRandomTimeout _ _) => TheWait
  | _ => NoWait
  end.

(** The operation completed normally, having made at least one engine call
    and none that failed. *)
Definition succeeded {E : Engine} (o : Operation) (s : env_state E) : bool :=
  is_normal (outcome o s)
  && negb (Nat.eqb (List.length (engine_calls (trace o s))) 0)
  && forallb (fun cr => is_normal (snd cr)) (engine_calls (trace o s)).

(** "Logs its result": a successful run prints at least one [console.log]
    line. *)
Definition logs_success (E : Engine) (o : Operation) : Prop :=
  forall s : env_state E,
    succeeded o s = true -> console_lines LvlLog (trace o s) <> [].

(** The operations that print nothing when they succeed. *)
Definition silent_on_success (o : Operation) : bool :=
  match o with
  | OnPageHandler _ (GetElements _)
  | OnPageHandler _ (GetElementText _)
  | OnPageHandler _ (GetElementAttribute _ _)
  | OnPageHandler _ (WaitForRandomTimeout _ _) => true
  | _ => false
  end.

(** ** The helper of the PageHandler tests (src/FileManager.js, lines 685-688) *)

(** [url.replace(/\/$/, '')]: the pattern has no flag, so [$] is the end of
    the input and the one possible match is a slash that is the last
    character; [replace] with a pattern replaces the first match. *)
Fixpoint normalizeUrl (url : string) : string :=
  match url with
  | EmptyString => EmptyString
  | String c rest =>
      match rest with
      | EmptyString => if Ascii.eqb c "/" then EmptyString else url
      | String _ _ => String c (normalizeUrl rest)
      end
  end.

(** ** Readings of a trace *)

(** Every engine call but the last one completed normally. *)
Fixpoint stops_at_failure (calls : list (EngineCall * Completion JsVal)) : bool :=
  match calls with
  | [] => true
  | (_, r) :: rest =>
      match rest with
      | [] => true
      | _ :: _ => is_normal r && stops_at_failure rest
      end
  end.

(** The call [recv.member(...)], whatever the receiver and the arguments. *)
Definition calls_member (member : string) (c : EngineCall) : bool :=
  match c with
  | Method _ m _ => (m =? member)%string
  | Static _ _ _ => false
  end.

(** The one operation that goes on after an engine call of its own has
    failed. *)
Definition continues_after_failure (o : Operation) : bool :=
  match o with
  | OnBrowserManager _ CloseBrowser => true
  | _ => false
  end.

(** The operations whose engine calls are [close] calls. *)
Definition closes (o : Operation) : bool :=
  match o with
  | OnBrowserManager _ CloseContext | OnBrowserManager _ CloseBrowser => true
  | _ => false
  end.

(** "For all integers [waitMin <= waitMax] and every random draw in
    [0, 1), the computed delay is an integer between [waitMin] and
    [waitMax]." *)
Definition delay_always_within_bounds : Prop :=
  forall (waitMin waitMax : Z) (r : Q),
    waitMin <= waitMax ->
    Double.representable r = true -> (0 <= r)%Q -> (r < 1)%Q ->
    exists d : Z,
      PageHandler.waitTime r waitMin waitMax = Int d /\ waitMin <= d <= waitMax.


(** An engine that gives every call the same answer. *)
Module Constant.
Definition engine (answer : Completion JsVal) : Engine :=
  {| env_state := unit;
     engine_call := fun _ s => (answer, s);
     math_random := fun s => (0%Q, s);
     json_stringify := fun data _ => Normal (VStr (to_str data)) |}.
End Constant.

(** "For every BrowserManager whose context field is non-null, newContext
    returns that existing context unchanged and creates no new context." *)
Definition reuses_every_non_null_context (E : Engine) : Prop :=
  forall (this : BrowserManager.BrowserManager) (contextOptions : JsVal)
         (s : env_state E),
    BrowserManager.context this <> VNull ->
    completion (BrowserManager.newContext contextOptions this s)
    = Normal (BrowserManager.context this)
    /\ engine_calls (events (BrowserManager.newContext contextOptions this s)) = [].

(** ** Proof automation *)

(** Case analysis on the answer of the next engine call of the goal. *)
Ltac engine_answer :=
  match goal with
  | |- context [engine_call ?E ?c ?s] =>
      let r := fresh "r" in
      let s' := fresh "s" in
      let Hcall := fresh "Hcall" in
      destruct (engine_call E c s) as [[r | r] s'] eqn:Hcall; cbn
  end.

(** ** FileManager: the existence check *)

(** [fs] has no [existsSync]. *)
Lemma fs_has_no_existsSync : has_member FileManager.fs "existsSync" = false.
Proof. reflexivity. Qed.

Lemma fs_has_rm : has_member FileManager.fs "rm" = true.
Proof. reflexivity. Qed.

(** What [pathExist] does on every path and in every state of the engine. *)
Lemma pathExist_run (E : Engine) (path : string) (s : env_state E) :
  FileManager.pathExist path tt s =
  mkRun (Throw (TypeError "fs.existsSync is not a function")) tt s
        [EConsole LvlError
           [VStr ("Error verifying existance of path " ++ path
                  ++ ": TypeError: fs.existsSync is not a function")]].
Proof. reflexivity. Qed.

(** C3.  For every path, [pathExist] rejects with the TypeError of calling
    the missing [fs.existsSync], after printing it with [console.error]; it
    makes no engine call and never resolves to a boolean.  [fileExists] and
    [directoryExists] reject in the same way. *)
Theorem pathExist_always_rejects :
  forall (E : Engine) (path : string) (s : env_state E) (op : FileOp),
    In op [PathExist path; FileExists path; DirectoryExists path] ->
    outcome (OnFileManager op) s
    = Throw (TypeError "fs.existsSync is not a function")
    /\ (forall b : bool, outcome (OnFileManager op) s <> Normal (VBool b))
    /\ engine_calls (trace (OnFileManager op) s) = []
    /\ console_lines LvlError (trace (OnFileManager op) s)
       = [[VStr ("Error verifying existance of path " ++ path
                 ++ ": TypeError: fs.existsSync is not a function")]].
Proof.
  intros E path s op Hop.
  assert (Hrun : file_op op tt s = FileManager.pathExist path tt s).
  { cbn in Hop. destruct Hop as [<- | [<- | [<- | []]]]; reflexivity. }
  unfold outcome, trace. rewrite Hrun, pathExist_run. cbn.
  repeat split; try reflexivity. intros b; discriminate.
Qed.

Lemma pathExist_always_rejects_witness :
  outcome (E := Scripted.engine) (OnFileManager (FileExists "notes.txt"))
          (Scripted.mk [Normal (VBool true)] [])
  = Throw (TypeError "fs.existsSync is not a function").
Proof.
  apply (pathExist_always_rejects Scripted.engine "notes.txt"
           (Scripted.mk [Normal (VBool true)] []) (FileExists "notes.txt")).
  cbn. right. left. reflexivity.
Defined.

(** C4.  In [deletePath] the value tested by [if] is the promise returned by
    [pathExist], which is truthy; so for every path, [recursive] flag and
    engine state, [fs.rm(path, { recursive })] is the one engine call made,
    and no warning is printed. *)
Theorem deletePath_always_calls_rm :
  forall (E : Engine) (path : string) (recursive : option bool)
         (s : env_state E),
    let rm := Static "fs" "rm"
                [VStr path; VRecord [("recursive", VBool (default false recursive))]] in
    (exists rejected settled,
        completion (promise_of (FileManager.pathExist path) tt s)
        = Normal (VPromise rejected settled)
        /\ truthy (VPromise rejected settled) = true)
    /\ engine_calls (trace (OnFileManager (DeletePath path recursive)) s)
       = [(rm, fst (engine_call E rm s))]
    /\ console_lines LvlWarn (trace (OnFileManager (DeletePath path recursive)) s)
       = [].
Proof.
  intros E path recursive s rm. split.
  - exists true, (TypeError "fs.existsSync is not a function").
    split; reflexivity.
  - unfold trace, file_op, FileManager.deletePath, try_catch, bind, promise_of.
    rewrite pathExist_run. subst rm. cbn. unfold perform, FileManager.fs.
    engine_answer; split; reflexivity.
Qed.

(** ** BrowserManager: closing and the fields *)

Lemma closeContext_this (E : Engine) (this : BrowserManager.BrowserManager)
      (s : env_state E) :
  this_after (BrowserManager.closeContext this s) = this.
Proof.
  unfold BrowserManager.closeContext, try_catch, bind, get_this. cbn.
  destruct (truthy (BrowserManager.context this)); cbn; [|reflexivity].
  unfold call_method, perform, throw.
  destruct (is_engine_object (BrowserManager.context this)); cbn;
    [engine_answer|]; reflexivity.
Qed.

Lemma closeBrowser_this (E : Engine) (this : BrowserManager.BrowserManager)
      (s : env_state E) :
  this_after (BrowserManager.closeBrowser this s) = this.
Proof.
  unfold BrowserManager.closeBrowser, try_catch, bind, get_this. cbn.
  destruct (truthy (BrowserManager.browser this)); cbn; [|reflexivity].
  pose proof (closeContext_this E this s) as Hctx.
  destruct (BrowserManager.closeContext this s) as [c this' s' ev]; cbn in *.
  subst this'.
  destruct c as [v | e]; cbn; [|reflexivity].
  unfold call_method, perform, throw.
  destruct (is_engine_object (BrowserManager.browser this)); cbn;
    [engine_answer|]; reflexivity.
Qed.

Lemma newContext_existing (E : Engine) (this : BrowserManager.BrowserManager)
      (contextOptions : JsVal) (s : env_state E) :
  truthy (BrowserManager.context this) = true ->
  BrowserManager.newContext contextOptions this s
  = mkRun (Normal (BrowserManager.context this)) this s
          [EConsole LvlWarn
             [VStr "Current Context needs to close before creating a new one"]].
Proof.
  intros Hctx.
  unfold BrowserManager.newContext, try_catch, bind, get_this. cbn.
  rewrite Hctx. reflexivity.
Qed.

(** ** PageHandler: the random wait *)

(** ** Double arithmetic: rounding *)

Lemma nearest_even_error (n d : Z) :
  0 < d ->
  - d <= 2 * (Double.nearest_even n d * d - n) <= d.
Proof.
  intros Hd. unfold Double.nearest_even.
  pose proof (Z.div_mod n d ltac:(lia)) as Hdiv.
  pose proof (Z.mod_pos_bound n d Hd) as Hmod.
  generalize dependent (n mod d). generalize dependent (n / d).
  intros q r Hdiv Hmod. cbn zeta.
  assert (Hqd : q * d = d * q) by lia.
  assert (Hq1 : (q + 1) * d = d * q + d) by lia.
  destruct (Z.compare_spec (2 * r) d) as [Hcmp | Hcmp | Hcmp];
    [destruct (Z.even q)| |]; lia.
Qed.

Lemma nearest_even_nonneg (n d : Z) :
  0 < d -> 0 <= n -> 0 <= Double.nearest_even n d.
Proof.
  intros Hd Hn. unfold Double.nearest_even.
  pose proof (Z.div_pos n d Hn Hd) as Hq.
  destruct (2 * (n mod d) ?= d); [destruct (Z.even (n / d))| |]; lia.
Qed.

Lemma nearest_even_exact (q d : Z) :
  0 < d -> Double.nearest_even (q * d) d = q.
Proof.
  intros Hd. unfold Double.nearest_even.
  rewrite Z.mod_mul, Z.div_mul by lia.
  replace (2 * 0) with 0 by lia.
  destruct (Z.compare_spec 0 d) as [Hcmp | Hcmp | Hcmp]; try reflexivity; lia.
Qed.

(** [scale] at an exponent that is not positive. *)
Lemma scale_nonpos (a b e : Z) :
  e <= 0 ->
  Double.nearest_even (fst (Double.scale a b e)) (snd (Double.scale a b e))
  = Double.nearest_even (a * 2 ^ (- e)) b.
Proof.
  intros He. unfold Double.scale.
  destruct (0 <=? e) eqn:H0; [|reflexivity].
  apply Z.leb_le in H0. assert (e = 0) by lia. subst e. cbn [fst snd].
  change (- 0) with 0. rewrite Z.pow_0_r, !Z.mul_1_r. reflexivity.
Qed.

Lemma floor_log2_spec (a b : Z) :
  0 < a -> 0 < b ->
  let l := Double.floor_log2 a b in
  snd (Double.scale a b l) <= fst (Double.scale a b l)
  /\ fst (Double.scale a b l) < 2 * snd (Double.scale a b l).
Proof.
  intros Ha Hb. unfold Double.floor_log2.
  set (l0 := Z.log2 a - Z.log2 b).
  pose proof (Z.log2_spec a Ha) as [Ha1 Ha2].
  pose proof (Z.log2_spec b Hb) as [Hb1 Hb2].
  pose proof (Z.log2_nonneg a) as Hla.
  pose proof (Z.log2_nonneg b) as Hlb.
  rewrite Z.pow_succ_r in Ha2, Hb2 by lia.
  set (pa := 2 ^ Z.log2 a) in *. set (pb := 2 ^ Z.log2 b) in *.
  assert (Hpa : 0 < pa) by (apply Z.pow_pos_nonneg; lia).
  assert (Hpb : 0 < pb) by (apply Z.pow_pos_nonneg; lia).
  (* a / b lies strictly between 2^(l0-1) and 2^(l0+1) *)
  destruct (snd (Double.scale a b l0) <=? fst (Double.scale a b l0)) eqn:Htest.
  - apply Z.leb_le in Htest. split; [exact Htest|].
    unfold Double.scale in *. destruct (0 <=? l0) eqn:Hl0; cbn [fst snd] in *.
    + apply Z.leb_le in Hl0.
      assert (Hp : pa = pb * 2 ^ l0).
      { subst pa pb l0. rewrite <- Z.pow_add_r by lia. f_equal. lia. }
      nia.
    + apply Z.leb_gt in Hl0.
      assert (Hp : pb = pa * 2 ^ (- l0)).
      { subst pa pb l0. rewrite <- Z.pow_add_r by lia. f_equal. lia. }
      assert (0 < 2 ^ (- l0)) by (apply Z.pow_pos_nonneg; lia).
      nia.
  - apply Z.leb_gt in Htest.
    unfold Double.scale in *.
    destruct (0 <=? l0) eqn:Hl0; cbn [fst snd] in Htest.
    + apply Z.leb_le in Hl0.
      assert (Hp : pa = pb * 2 ^ l0).
      { subst pa pb l0. rewrite <- Z.pow_add_r by lia. f_equal. lia. }
      destruct (0 <=? l0 - 1) eqn:Hl1; cbn [fst snd].
      * apply Z.leb_le in Hl1.
        assert (Hq : 2 ^ l0 = 2 * 2 ^ (l0 - 1)).
        { rewrite <- Z.pow_succ_r by lia. f_equal. lia. }
        assert (0 < 2 ^ (l0 - 1)) by (apply Z.pow_pos_nonneg; lia).
        nia.
      * apply Z.leb_gt in Hl1. assert (l0 = 0) by lia.
        replace (- (l0 - 1)) with 1 by lia. rewrite Z.pow_1_r.
        replace (2 ^ l0) with 1 in * by (subst l0; rewrite H; reflexivity).
        nia.
    + apply Z.leb_gt in Hl0.
      assert (Hp : pb = pa * 2 ^ (- l0)).
      { subst pa pb l0. rewrite <- Z.pow_add_r by lia. f_equal. lia. }
      destruct (0 <=? l0 - 1) eqn:Hl1; [apply Z.leb_le in Hl1; lia|].
      cbn [fst snd].
      assert (Hq : 2 ^ (- (l0 - 1)) = 2 * 2 ^ (- l0)).
      { rewrite <- Z.pow_succ_r by lia. f_equal. lia. }
      assert (0 < 2 ^ (- l0)) by (apply Z.pow_pos_nonneg; lia).
      nia.
Qed.

Lemma pow2_pos (k : Z) : 0 <= k -> 0 < 2 ^ k.
Proof. intros. apply Z.pow_pos_nonneg; lia. Qed.

Lemma pow2_split (i j : Z) : 0 <= i -> 0 <= j -> 2 ^ (i + j) = 2 ^ i * 2 ^ j.
Proof. intros. apply Z.pow_add_r; assumption. Qed.

(** The rounding of [a / b] when it is below an integer [n <= 2 ^ 53] by a
    factor [1 - 2 ^ -53] at least. *)
Lemma round_pos_below (a b n : Z) :
  0 < a -> 0 < b -> 1 <= n <= 2 ^ 53 ->
  a * 2 ^ 53 <= n * (2 ^ 53 - 1) * b ->
  exists m e,
    e <= 0 /\ 0 <= m < n * 2 ^ (- e)
    /\ Double.round_pos a b = Double.Finite (Double.value m e).
Proof.
  intros Ha Hb Hn Hbelow.
  pose proof (floor_log2_spec a b Ha Hb) as [S1 S2]. cbn zeta in S1, S2.
  unfold Double.round_pos.
  set (L := Double.floor_log2 a b) in *.
  assert (Hc2 : 0 < 2 ^ 52) by (apply pow2_pos; lia).
  assert (Hc : 2 ^ 53 = 2 * 2 ^ 52) by (rewrite <- Z.pow_succ_r by lia; reflexivity).
  set (c2 := 2 ^ 52) in *. set (c := 2 ^ 53) in *.
  (* a / b < 2 ^ 53 *)
  assert (HL : L <= 52).
  { destruct (Z_le_gt_dec L 52) as [H | H]; [exact H | exfalso].
    unfold Double.scale in S1.
    destruct (0 <=? L) eqn:H0; [| apply Z.leb_gt in H0; lia].
    cbn [fst snd] in S1.
    assert (Hp : c <= 2 ^ L) by (subst c; apply Z.pow_le_mono_r; lia).
    assert (b * c <= a) by nia.
    assert (a * c < c * c * b) by nia.
    nia. }
  set (e := Z.max (-1074) (L - 52)).
  assert (He : e <= 0) by (subst e; lia).
  rewrite (scale_nonpos a b e He).
  set (k := - e). assert (Hk : 0 <= k) by (subst k; lia).
  pose proof (pow2_pos k Hk) as Hp2.
  remember (a * 2 ^ k) as N eqn:HNdef.
  pose proof (nearest_even_error N b Hb) as Herr.
  pose proof (nearest_even_nonneg N b Hb ltac:(nia)) as Hm0.
  remember (Double.nearest_even N b) as m eqn:Hmdef.
  assert (Hm : m < n * 2 ^ k).
  { destruct (Z_le_gt_dec (-1074) (L - 52)) as [Hnormal | Hsub].
    - (* 53 significant bits *)
      assert (Hek : k = 52 - L) by (subst k e; lia).
      assert (HN : b * c2 <= N).
      { unfold Double.scale in S1.
        destruct (0 <=? L) eqn:H0; cbn [fst snd] in S1.
        - apply Z.leb_le in H0.
          assert (Hs : c2 = 2 ^ L * 2 ^ k).
          { subst c2. rewrite <- pow2_split by lia. f_equal. lia. }
          pose proof (pow2_pos L H0). nia.
        - apply Z.leb_gt in H0.
          assert (Hs : 2 ^ k = 2 ^ (- L) * c2).
          { subst c2. rewrite <- pow2_split by lia. f_equal. lia. }
          nia. }
      remember (n * 2 ^ k) as t eqn:Htdef.
      assert (HT : N * c <= t * b * (c - 1)) by (subst N t; nia).
      assert (HNT : N < t * b) by nia.
      assert (H2 : (2 * N + b) * c < 2 * (t * b) * c) by nia.
      assert (H3 : 2 * N + b < 2 * (t * b)) by nia.
      assert (H4 : m * b < t * b) by lia.
      nia.
    - (* below 2 ^ -1022 *)
      assert (Hek : k = 1074) by (subst k e; lia).
      assert (HL0 : L < 0) by lia.
      unfold Double.scale in S2.
      destruct (0 <=? L) eqn:H0; [apply Z.leb_le in H0; lia|].
      cbn [fst snd] in S2.
      assert (Hs : 2 ^ k = 2 ^ 1023 * 2 ^ 51).
      { rewrite <- pow2_split by lia. f_equal. lia. }
      assert (Hs' : c2 = 2 * 2 ^ 51).
      { subst c2. rewrite <- Z.pow_succ_r by lia. reflexivity. }
      assert (Hs'' : 2 ^ 1023 <= 2 ^ (- L)) by (apply Z.pow_le_mono_r; lia).
      pose proof (pow2_pos 51 ltac:(lia)).
      remember (2 ^ 1023) as p1023. remember (2 ^ 51) as p51.
      remember (2 ^ (- L)) as pL.
      assert (a * p1023 < 2 * b) by nia.
      assert (HN : N < b * c2) by nia.
      assert (Hmc : m <= c2) by nia.
      assert (c2 < 2 ^ k) by (subst c2; apply Z.pow_lt_mono_r; lia).
      nia. }
  exists m, e. fold k. repeat split; try assumption.
  destruct (0 <=? e) eqn:H0; cbn [andb]; [| reflexivity].
  apply Z.leb_le in H0. assert (e = 0) by lia.
  assert (Hbig : m * 2 ^ e < 2 ^ 1024).
  { replace e with 0 by lia. rewrite Z.pow_0_r, Z.mul_1_r.
    assert (k = 0) by (subst k; lia).
    assert (2 ^ k = 1) by (replace k with 0 by lia; reflexivity).
    assert (c < 2 ^ 1024) by (subst c; apply Z.pow_lt_mono_r; lia).
    nia. }
  apply Z.leb_gt in Hbig. rewrite Hbig. reflexivity.
Qed.

Lemma value_bounds (m e n : Z) :
  e <= 0 -> 0 <= m < n * 2 ^ (- e) ->
  (0 <= Double.value m e)%Q /\ (Double.value m e < inject_Z n)%Q.
Proof.
  intros He Hm. unfold Double.value.
  destruct (0 <=? e) eqn:H0.
  - apply Z.leb_le in H0. assert (e = 0) by lia. subst e.
    change (- 0) with 0 in Hm. rewrite Z.pow_0_r, Z.mul_1_r in *.
    split.
    + change 0%Q with (inject_Z 0). rewrite <- Zle_Qle. lia.
    + rewrite <- Zlt_Qlt. lia.
  - apply Z.leb_gt in H0.
    pose proof (pow2_pos (- e) ltac:(lia)) as Hp.
    rewrite Qred_correct.
    unfold Qle, Qlt. cbn [Qnum Qden inject_Z].
    rewrite Z2Pos.id by assumption. lia.
Qed.

Lemma round_comp (x y : Q) : (x == y)%Q -> Double.round x = Double.round y.
Proof.
  intros H. unfold Double.round. rewrite (Qred_complete x y H). reflexivity.
Qed.

Lemma Qred_inject_Z (z : Z) : Qred (inject_Z z) = inject_Z z.
Proof.
  unfold Qred, inject_Z.
  pose proof (Z.ggcd_gcd z 1) as Hg.
  pose proof (Z.ggcd_correct_divisors z 1) as Hd.
  destruct (Z.ggcd z 1) as [g [q1 q2]]. cbn [fst snd] in *.
  rewrite Z.gcd_1_r in Hg. subst g. destruct Hd as [H1 H2].
  replace q1 with z by lia. replace q2 with 1 by lia. reflexivity.
Qed.

(** The positive integers up to [2 ^ 53] are doubles. *)
Lemma round_pos_integer (z : Z) :
  0 < z <= 2 ^ 53 ->
  Double.round_pos z 1 = Double.Finite (inject_Z z).
Proof.
  intros Hz.
  pose proof (Z.log2_spec z ltac:(lia)) as [Hl1 Hl2].
  pose proof (Z.log2_nonneg z) as Hl0.
  assert (Hl53 : Z.log2 z <= 53).
  { pose proof (Z.log2_le_mono z (2 ^ 53) ltac:(lia)) as H.
    rewrite Z.log2_pow2 in H by lia. exact H. }
  assert (HL : Double.floor_log2 z 1 = Z.log2 z).
  { unfold Double.floor_log2, Double.scale.
    change (Z.log2 1) with 0. rewrite Z.sub_0_r.
    destruct (0 <=? Z.log2 z) eqn:H0; [| apply Z.leb_gt in H0; lia].
    cbn [fst snd]. rewrite Z.mul_1_l.
    destruct (2 ^ Z.log2 z <=? z) eqn:Ht; [reflexivity|].
    apply Z.leb_gt in Ht. lia. }
  destruct (Z.eq_dec (Z.log2 z) 53) as [H53 | H53].
  - assert (z = 2 ^ 53) by (rewrite H53 in Hl1; lia).
    subst z. vm_compute. reflexivity.
  - unfold Double.round_pos. rewrite HL.
    set (e := Z.max (-1074) (Z.log2 z - 52)).
    assert (He : e = Z.log2 z - 52) by (subst e; lia).
    assert (He0 : e <= 0) by lia.
    rewrite (scale_nonpos z 1 e He0).
    replace (z * 2 ^ (- e)) with ((z * 2 ^ (- e)) * 1) by lia.
    rewrite nearest_even_exact by lia.
    pose proof (pow2_pos (- e) ltac:(lia)) as Hp.
    unfold Double.value.
    destruct (0 <=? e) eqn:H0; cbn [andb].
    + apply Z.leb_le in H0. assert (He' : e = 0) by lia. rewrite He'.
      change (- 0) with 0. rewrite Z.pow_0_r, !Z.mul_1_r.
      assert (Hbig : z < 2 ^ 1024).
      { assert (2 ^ 53 < 2 ^ 1024) by (apply Z.pow_lt_mono_r; lia). lia. }
      apply Z.leb_gt in Hbig. rewrite Hbig. reflexivity.
    + f_equal. rewrite <- (Qred_inject_Z z). apply Qred_complete.
      unfold Qeq. cbn [Qnum Qden inject_Z].
      rewrite Z2Pos.id by assumption. lia.
Qed.

Lemma of_Z_exact (z : Z) :
  - 2 ^ 53 <= z <= 2 ^ 53 ->
  Double.of_Z z = Double.Finite (inject_Z z).
Proof.
  intros Hz. unfold Double.of_Z, Double.round.
  rewrite Qred_inject_Z. cbn [Qnum Qden inject_Z].
  destruct z as [| p | p].
  - reflexivity.
  - apply round_pos_integer. lia.
  - rewrite round_pos_integer by lia. reflexivity.
Qed.

(** Sums and differences of integers that stay within [2 ^ 53] are exact. *)
Lemma add_integers (x y : Z) :
  - 2 ^ 53 <= x + y <= 2 ^ 53 ->
  Double.add (Double.Finite (inject_Z x)) (Double.Finite (inject_Z y))
  = Double.Finite (inject_Z (x + y)).
Proof.
  intros H. cbn [Double.add].
  rewrite (round_comp _ (inject_Z (x + y))).
  - apply of_Z_exact. exact H.
  - rewrite inject_Z_plus. reflexivity.
Qed.

Lemma sub_integers (x y : Z) :
  - 2 ^ 53 <= x - y <= 2 ^ 53 ->
  Double.sub (Double.Finite (inject_Z x)) (Double.Finite (inject_Z y))
  = Double.Finite (inject_Z (x - y)).
Proof.
  intros H. unfold Double.sub. cbn [Double.neg Double.add].
  rewrite (round_comp _ (inject_Z (x - y))).
  - apply of_Z_exact. exact H.
  - unfold Z.sub. rewrite inject_Z_plus, inject_Z_opp. reflexivity.
Qed.

(** A double below 1 is at most [1 - 2 ^ -53]. *)
Lemma representable_below_one (a : Z) (b : positive) :
  Qred (a # b) = a # b ->
  Double.representable (a # b) = true ->
  0 < a < Z.pos b ->
  a * 2 ^ 53 <= (2 ^ 53 - 1) * Z.pos b.
Proof.
  intros Hred Hrep Hab.
  unfold Double.representable, Double.round in Hrep. rewrite Hred in Hrep.
  cbn [Qnum Qden] in Hrep.
  destruct a as [| pa | pa]; try lia.
  pose proof (floor_log2_spec (Z.pos pa) (Z.pos b) ltac:(lia) ltac:(lia))
    as [S1 S2]. cbn zeta in S1, S2.
  unfold Double.round_pos in Hrep.
  set (L := Double.floor_log2 (Z.pos pa) (Z.pos b)) in *.
  assert (Hc : 2 ^ 53 = 2 * 2 ^ 52) by (rewrite <- Z.pow_succ_r by lia; reflexivity).
  pose proof (pow2_pos 52 ltac:(lia)) as Hc2.
  assert (HL : L < 0).
  { destruct (Z_lt_ge_dec L 0) as [H | H]; [exact H | exfalso].
    unfold Double.scale in S1.
    destruct (0 <=? L) eqn:H0; [| apply Z.leb_gt in H0; lia].
    cbn [fst snd] in S1. pose proof (pow2_pos L ltac:(lia)). nia. }
  unfold Double.scale in S1, S2.
  destruct (0 <=? L) eqn:H0; [apply Z.leb_le in H0; lia|].
  cbn [fst snd] in S1, S2.
  destruct (Z.eq_dec L (-1)) as [H1 | H1].
  - (* between 1/2 and 1: a multiple of 2 ^ -53 *)
    set (e := Z.max (-1074) (L - 52)) in *.
    assert (He : e = -53) by (subst e; lia).
    rewrite (scale_nonpos _ _ e ltac:(lia)) in Hrep.
    destruct (0 <=? e) eqn:H0'; [apply Z.leb_le in H0'; lia|].
    cbn [andb] in Hrep.
    remember (Double.nearest_even (Z.pos pa * 2 ^ (- e)) (Z.pos b)) as m.
    unfold Double.value in Hrep. rewrite H0' in Hrep.
    apply Qeq_bool_eq in Hrep. rewrite Qred_correct in Hrep.
    unfold Qeq in Hrep. cbn [Qnum Qden] in Hrep.
    replace (- e) with 53 in * by lia.
    rewrite Z2Pos.id in Hrep by (apply pow2_pos; lia).
    remember (2 ^ 53) as c.
    assert (Hmb : m * Z.pos b < c * Z.pos b) by nia.
    assert (Hmc : m <= c - 1) by nia.
    nia.
  - (* below 1/2 *)
    assert (Hp : 4 <= 2 ^ (- L)).
    { change 4 with (2 ^ 2). apply Z.pow_le_mono_r; lia. }
    remember (2 ^ 53) as c. remember (2 ^ (- L)) as p. nia.
Qed.

Lemma neg_involutive (x : Double.t) : Double.neg (Double.neg x) = x.
Proof.
  destruct x as [[a b] | s |]; cbn; [| rewrite negb_involutive |]; try reflexivity.
  unfold Qopp. cbn. rewrite Z.opp_involutive. reflexivity.
Qed.

Lemma round_opp (x : Q) : Double.round (- x) = Double.neg (Double.round x).
Proof.
  unfold Double.round. rewrite Qred_opp.
  destruct (Qred x) as [[| p | p] d]; cbn [Qopp Qnum Qden Z.opp].
  - reflexivity.
  - reflexivity.
  - rewrite neg_involutive. reflexivity.
Qed.

(** The product of a draw and a positive integer up to [2 ^ 53] is a double
    below that integer. *)
Lemma mul_draw_below (r : Q) (n : Z) :
  Double.representable r = true -> (0 <= r)%Q -> (r < 1)%Q ->
  1 <= n <= 2 ^ 53 ->
  exists P,
    Double.mul (Double.Finite r) (Double.Finite (inject_Z n)) = Double.Finite P
    /\ (0 <= P)%Q /\ (P < inject_Z n)%Q.
Proof.
  intros Hrep Hr0 Hr1 Hn. cbn [Double.mul].
  destruct (Qeq_dec r 0) as [Hzero | Hpos].
  - exists 0%Q. split; [| split].
    + rewrite (round_comp _ 0%Q); [reflexivity|]. rewrite Hzero. ring.
    + apply Qle_refl.
    + change 0%Q with (inject_Z 0). rewrite <- Zlt_Qlt. lia.
  - assert (Hr : (0 < r)%Q).
    { apply Qle_lt_or_eq in Hr0. destruct Hr0 as [H | H]; [exact H|].
      exfalso. apply Hpos. symmetry. exact H. }
    (* the draw, in lowest terms *)
    pose proof (Qred_correct r) as Hred.
    assert (Hred2 : Qred (Qred r) = Qred r).
    { apply Qred_complete. exact Hred. }
    assert (Hrep' : Double.representable (Qred r) = true).
    { unfold Double.representable in *.
      rewrite (round_comp (Qred r) r Hred).
      destruct (Double.round r) as [q | |]; try discriminate.
      apply Qeq_bool_iff in Hrep. apply Qeq_bool_iff.
      rewrite Hred. exact Hrep. }
    rewrite <- Hred in Hr, Hr1.
    destruct (Qred r) as [a b] eqn:Hab.
    unfold Qlt in Hr, Hr1. cbn [Qnum Qden] in Hr, Hr1.
    rewrite Z.mul_1_r in Hr, Hr1. rewrite Z.mul_1_l in Hr1.
    cbn in Hr.
    pose proof (representable_below_one a b Hred2 Hrep' ltac:(lia)) as Hbelow.
    (* the product, in lowest terms *)
    set (x := (r * inject_Z n)%Q).
    assert (Hx : (Qred x == (a * n # b))%Q).
    { rewrite Qred_correct. subst x. rewrite <- Hred.
      unfold Qeq, Qmult. cbn [Qnum Qden inject_Z]. rewrite Pos.mul_1_r. ring. }
    unfold Double.round. fold x.
    destruct (Qred x) as [a' b'] eqn:Hab'.
    unfold Qeq in Hx. cbn [Qnum Qden] in Hx.
    assert (Ha' : 0 < a') by nia.
    destruct a' as [| pa' | pa']; try lia.
    cbn [Qnum Qden].
    remember (2 ^ 53) as c.
    assert (Hc : 0 < c) by (subst c; apply pow2_pos; lia).
    assert (H1 : Z.pos pa' * c * Z.pos b <= n * (c - 1) * Z.pos b' * Z.pos b) by nia.
    assert (H2 : Z.pos pa' * c <= n * (c - 1) * Z.pos b') by nia.
    subst c.
    destruct (round_pos_below (Z.pos pa') (Z.pos b') n ltac:(lia) ltac:(lia) Hn H2)
      as [m [e [He [Hm Hround]]]].
    exists (Double.value m e). split; [exact Hround|].
    apply value_bounds; assumption.
Qed.

(** The delay of [waitForRandomTimeout], when the bounds are integers that
    double arithmetic holds exactly. *)
Lemma waitTime_range (r : Q) (waitMin waitMax : Z) :
  - 2 ^ 53 <= waitMin -> waitMin <= waitMax -> waitMax <= 2 ^ 53 ->
  waitMax - waitMin < 2 ^ 53 ->
  Double.representable r = true -> (0 <= r)%Q -> (r < 1)%Q ->
  exists d : Z,
    PageHandler.waitTime r waitMin waitMax = Int d /\ waitMin <= d <= waitMax.
Proof.
  intros Hlo Hle Hhi Hspan Hrep Hr0 Hr1.
  assert (H53 : 1 <= 2 ^ 53) by (pose proof (pow2_pos 53 ltac:(lia)); lia).
  unfold PageHandler.waitTime.
  rewrite (of_Z_exact waitMin), (of_Z_exact waitMax), (of_Z_exact 1) by lia.
  rewrite sub_integers by lia. rewrite add_integers by lia.
  destruct (mul_draw_below r (waitMax - waitMin + 1) Hrep Hr0 Hr1 ltac:(lia))
    as [P [HP [HP0 HPn]]].
  rewrite HP. cbn [Double.floor].
  assert (Hf0 : 0 <= Qfloor P).
  { rewrite <- (Qfloor_Z 0). apply Qfloor_resp_le. exact HP0. }
  assert (Hfn : Qfloor P < waitMax - waitMin + 1).
  { rewrite Zlt_Qlt. apply Qle_lt_trans with P; [apply Qfloor_le | exact HPn]. }
  rewrite add_integers by lia. cbn [Double.to_number]. rewrite Qfloor_Z.
  exists (Qfloor P + waitMin). split; [reflexivity | lia].
Qed.

(** The same with the bounds the wrong way round. *)
Lemma mul_draw_above (r : Q) (n : Z) :
  Double.representable r = true -> (0 <= r)%Q -> (r < 1)%Q ->
  - 2 ^ 53 <= n <= 0 ->
  exists P,
    Double.mul (Double.Finite r) (Double.Finite (inject_Z n)) = Double.Finite P
    /\ (P <= 0)%Q /\ (n = 0 \/ (inject_Z n < P)%Q).
Proof.
  intros Hrep Hr0 Hr1 Hn.
  destruct (Z.eq_dec n 0) as [-> | Hnz].
  - exists 0%Q. split; [| split].
    + cbn [Double.mul]. rewrite (round_comp _ 0%Q); [reflexivity | ring].
    + apply Qle_refl.
    + left. reflexivity.
  - destruct (mul_draw_below r (- n) Hrep Hr0 Hr1 ltac:(lia)) as [P [HP [HP0 HPn]]].
    exists (- P)%Q. split; [| split].
    + cbn [Double.mul] in *.
      rewrite (round_comp _ (- (r * inject_Z (- n)))%Q).
      * rewrite round_opp, HP. reflexivity.
      * rewrite inject_Z_opp. ring.
    + change 0%Q with (- 0)%Q. apply Qopp_le_compat. exact HP0.
    + right. rewrite inject_Z_opp in HPn.
      apply Qopp_lt_compat in HPn. rewrite Qopp_involutive in HPn. exact HPn.
Qed.



(** What [waitForRandomTimeout] does on a page object. *)
Lemma waitForRandomTimeout_run (E : Engine) (h : Handle)
      (waitMin waitMax : option Z) (s : env_state E) :
  let r := fst (math_random E s) in
  let wait := Method (VObject h) "waitForTimeout"
                [VNum (PageHandler.waitTime r (default 5000 waitMin)
                                            (default 12000 waitMax))] in
  let answer := engine_call E wait (snd (math_random E s)) in
  PageHandler.waitForRandomTimeout waitMin waitMax (PageHandler.new h) s
  = mkRun (match fst answer with
           | Normal _ => Normal VUndefined
           | Throw e => Throw e
           end)
          (PageHandler.new h) (snd answer) [ECall wait (fst answer)].
Proof.
  unfold PageHandler.waitForRandomTimeout, bind, random, get_this, call_method,
    perform, ret.
  cbn. destruct (math_random E s) as [q s1]. cbn.
  engine_answer; reflexivity.
Qed.

(** C6, as the spec states it, fails: the delay is computed in double
    arithmetic, and for the integers [- 2 ^ 1023 <= 2 ^ 1023], both doubles,
    [waitMax - waitMin] overflows; with the draw [1/2] the delay is
    [Infinity], which is no integer between the bounds. *)
Lemma waitTime_overflows : ~ delay_always_within_bounds.
Proof.
  intros Hall.
  destruct (Hall (- 2 ^ 1023) (2 ^ 1023) (1 # 2)%Q) as [d [Hd _]].
  - vm_compute. discriminate.
  - vm_compute. reflexivity.
  - vm_compute. discriminate.
  - vm_compute. reflexivity.
  - vm_compute in Hd. discriminate Hd.
Qed.

(** Nor is an integer beyond [2 ^ 53] always a number: [2 ^ 53 + 1] is read
    as [2 ^ 53], and a wait between [2 ^ 53 + 1] and itself lasts
    [2 ^ 53]. *)
Lemma waitTime_beyond_exact_integers :
  PageHandler.waitTime (1 # 2) (2 ^ 53 + 1) (2 ^ 53 + 1) = Int (2 ^ 53).
Proof. vm_compute. reflexivity. Qed.

(** C6, amended.  For integers [waitMin <= waitMax] that double arithmetic
    holds exactly ([- 2 ^ 53 <= waitMin], [waitMax <= 2 ^ 53] and
    [waitMax - waitMin < 2 ^ 53]; 5000 and 12000 when omitted) and a draw
    [r] of [Math.random()], a double with [0 <= r < 1], the delay
    [Math.floor(r * (waitMax - waitMin + 1)) + waitMin], computed in double
    arithmetic as the program computes it, is an integer between [waitMin]
    and [waitMax], and it is the argument of the one [page.waitForTimeout]
    call that [waitForRandomTimeout] makes. *)
Theorem waitForRandomTimeout_delay_bounded :
  forall (E : Engine) (h : Handle) (waitMin waitMax : option Z)
         (s : env_state E),
    let lo := default 5000 waitMin in
    let hi := default 12000 waitMax in
    let r := fst (math_random E s) in
    - 2 ^ 53 <= lo -> lo <= hi -> hi <= 2 ^ 53 -> hi - lo < 2 ^ 53 ->
    Double.representable r = true -> (0 <= r)%Q -> (r < 1)%Q ->
    exists delay : Z,
      PageHandler.waitTime r lo hi = Int delay
      /\ lo <= delay <= hi
      /\ exists answer,
          engine_calls
            (events (PageHandler.waitForRandomTimeout waitMin waitMax
                       (PageHandler.new h) s))
          = [(Method (VObject h) "waitForTimeout" [VNum delay], answer)].
Proof.
  intros E h waitMin waitMax s lo hi r Hlo Hle Hhi Hspan Hrep Hr0 Hr1.
  destruct (waitTime_range r lo hi Hlo Hle Hhi Hspan Hrep Hr0 Hr1)
    as [delay [Hdelay Hbounds]].
  exists delay. split; [exact Hdelay | split; [exact Hbounds|]].
  rewrite waitForRandomTimeout_run. cbn [events engine_calls].
  fold lo hi r. rewrite Hdelay. eexists. reflexivity.
Qed.

Lemma waitForRandomTimeout_delay_bounded_witness :
  exists delay : Z,
    PageHandler.waitTime (2830429704389399 # 4503599627370496) 5000 12000
    = Int delay
    /\ 5000 <= delay <= 12000
    /\ exists answer,
        engine_calls
          (events (PageHandler.waitForRandomTimeout (E := Scripted.engine)
                     None None (PageHandler.new 7%nat)
                     (Scripted.mk [] [(2830429704389399 # 4503599627370496)%Q])))
        = [(Method (VObject 7%nat) "waitForTimeout" [VNum delay], answer)].
Proof.
  apply (waitForRandomTimeout_delay_bounded Scripted.engine 7%nat None None
           (Scripted.mk [] [(2830429704389399 # 4503599627370496)%Q])).
  - vm_compute. discriminate.
  - vm_compute. discriminate.
  - vm_compute. discriminate.
  - vm_compute. reflexivity.
  - vm_compute. reflexivity.
  - vm_compute. discriminate.
  - vm_compute. reflexivity.
Defined.

(** The draw of that example is one where rounding matters: the exact
    product is just below 4400, the double product is 4400, and the
    program waits 9400 ms. *)
Lemma waitTime_rounds_the_product :
  PageHandler.waitTime (2830429704389399 # 4503599627370496) 5000 12000
  = Int 9400
  /\ Qfloor ((2830429704389399 # 4503599627370496) * inject_Z (12000 - 5000 + 1))
     + 5000 = 9399.
Proof. split; vm_compute; reflexivity. Qed.

(** ** Pass-through *)



(** The operations that consist of one engine call on the arguments they
    were given: the engine is left as that call leaves it, the operation
    fails with the call's error when the call fails, and when it succeeds
    [readFile] and [getElementAttribute] return its value while
    [createDirectory], [writeFile] and [appendToFile] return [undefined]. *)
Theorem wrapped_call_pass_through :
  forall (E : Engine) (o : Operation) (c : EngineCall) (returns : bool)
         (s : env_state E),
    wrapped_call o = Some (c, returns) ->
    let answer := engine_call E c s in
    engine_calls (trace o s) = [(c, fst answer)]
    /\ engine_after o s = snd answer
    /\ outcome o s = match fst answer with
                     | Normal v => Normal (if returns then v else VUndefined)
                     | Throw e => Throw e
                     end.
Proof.
  intros E o c returns s Hwrapped answer. subst answer.
  destruct o as [op | this op | this op]; destruct op; try discriminate;
    cbn in Hwrapped.
  - injection Hwrapped as <- <-.
    unfold trace, engine_after, outcome, file_op, FileManager.createDirectory,
      try_catch, bind, call_static, perform, FileManager.fs.
    cbn. engine_answer; repeat split.
  - injection Hwrapped as <- <-.
    unfold trace, engine_after, outcome, file_op, FileManager.readFile,
      try_catch, bind, call_static, perform, FileManager.fs.
    cbn. engine_answer; [repeat split|].
    destruct (strict_eq_str (get_prop r "code") "ENOENT"); repeat split.
  - injection Hwrapped as <- <-.
    unfold trace, engine_after, outcome, file_op, FileManager.writeFile,
      try_catch, bind, call_static, perform, FileManager.fs.
    cbn. engine_answer; repeat split.
  - injection Hwrapped as <- <-.
    unfold trace, engine_after, outcome, file_op, FileManager.appendToFile,
      try_catch, bind, call_static, perform, FileManager.fs.
    cbn. engine_answer; repeat split.
  - destruct (is_engine_object selectorOrLocator) eqn:Hobj; [|discriminate].
    injection Hwrapped as <- <-.
    unfold trace, engine_after, outcome, page_op,
      PageHandler.getElementAttribute, try_catch, bind, call_method, perform.
    rewrite Hobj. cbn. engine_answer; repeat split.
Qed.

Lemma wrapped_call_pass_through_witness :
  outcome (E := Scripted.engine)
          (OnFileManager (ReadFile "page.html" (VStr "utf8")))
          (Scripted.mk [Normal (VStr "<html></html>")] [])
  = Normal (VStr "<html></html>").
Proof.
  apply (wrapped_call_pass_through Scripted.engine
           (OnFileManager (ReadFile "page.html" (VStr "utf8")))
           (Static "fs" "readFile" [VStr "page.html"; VStr "utf8"]) true
           (Scripted.mk [Normal (VStr "<html></html>")] [])).
  reflexivity.
Defined.

(** ** Failing engine calls *)

(** Unfolding of the operations down to the answers of the engine. *)
Ltac unfold_operation :=
  unfold outcome, trace, file_op, page_op, browser_op;
  unfold FileManager.createDirectory, FileManager.deleteDirectory,
    FileManager.directoryExists, FileManager.readFile, FileManager.writeFile,
    FileManager.appendToFile, FileManager.deleteFile, FileManager.fileExists,
    FileManager.saveJson, FileManager.deletePath, FileManager.pathExist,
    PageHandler.goToUrl, PageHandler.goBack, PageHandler.goForward,
    PageHandler.reloadPage, PageHandler.getElements,
    PageHandler.getElementText, PageHandler.getElementAttribute,
    PageHandler.clickAndWait, PageHandler.typeText,
    PageHandler.clickElemenWithText, PageHandler.waitForRandomTimeout,
    BrowserManager.launchBrowser, BrowserManager.connectOverCDP,
    BrowserManager.newContext, BrowserManager.newPage,
    BrowserManager.closeBrowser, BrowserManager.closeContext,
    BrowserManager.assign_browser, BrowserManager.assign_context,
    BrowserManager.assign_page, BrowserManager.chromium, FileManager.fs;
  unfold call_static, call_method, locator, promise_of, try_catch, bind, ret,
    throw, get_this, set_this, perform, console, random, stringify;
  cbn.

(** One case split on what the run depends on next: the kind of a receiver,
    a flag, the answer of the engine, a draw, the result of
    [JSON.stringify]. *)
Ltac run_case :=
  match goal with
  | |- context [engine_call ?E ?c ?s] =>
      let r := fresh "r" in
      let s' := fresh "s" in
      destruct (engine_call E c s) as [[r | r] s']
  | |- context [math_random ?E ?s] =>
      let q := fresh "q" in
      let s' := fresh "s" in
      let Hdraw := fresh "Hdraw" in
      destruct (math_random E s) as [q s'] eqn:Hdraw
  | |- context [json_stringify ?E ?d ?i] =>
      destruct (json_stringify E d i)
  | |- context [is_engine_object ?v] => destruct (is_engine_object v) eqn:?
  | |- context [as_string ?v] => destruct (as_string v)
  | |- context [handle_of ?v] => destruct (handle_of v)
  | |- context [truthy ?v] => destruct (truthy v)
  | |- context [strict_eq_str ?v ?k] => destruct (strict_eq_str v k)
  | |- context [default _ ?o] => is_var o; destruct o as [[|]|]
  end; cbn.

Ltac run_cases := unfold_operation; repeat run_case.

(** A goal about an explicit trace in which a call is assumed to have
    failed. *)
Ltac failed_call :=
  let H := fresh "Hin" in
  intros ? ? H; cbn in H;
  repeat match type of H with
         | _ \/ _ => destruct H as [H | H]
         | False => destruct H
         end;
  try discriminate H;
  try (injection H as <- <-).

(** The prefix of an explicit trace that precedes a failed call and its
    console line. *)
Ltac trace_prefix :=
  first [ exists []; eexists; eexists; reflexivity
        | eexists [_]; eexists; eexists; reflexivity
        | eexists [_; _]; eexists; eexists; reflexivity
        | eexists [_; _; _]; eexists; eexists; reflexivity
        | eexists [_; _; _; _]; eexists; eexists; reflexivity
        | eexists [_; _; _; _; _]; eexists; eexists; reflexivity ].

(** C2, as the spec states it, fails: when [locator.textContent()] fails,
    [getElementText] prints the error and resolves to [null]. *)
Lemma getElementText_swallows_the_error :
  ~ (forall (E : Engine) (o : Operation), logs_and_rethrows E o).
Proof.
  intros Hall.
  destruct (Hall Scripted.engine
              (OnPageHandler (PageHandler.new 1%nat)
                             (GetElementText (VStr ".notfound")))
              (Scripted.mk [Throw (VError "TimeoutError" None "Timeout 30000ms exceeded.")] [])
              (Method (VLocator 1%nat ".notfound" None) "textContent" [])
              (VError "TimeoutError" None "Timeout 30000ms exceeded."))
    as [Hthrown _].
  - cbn. left. reflexivity.
  - discriminate Hthrown.
Qed.

(** C2, amended.  When an engine call made by a public operation fails, the
    operation prints a [console.error] line and throws the engine's error to
    its caller, except that: [getElementText] prints the [console.error]
    line and resolves to [null]; [typeText] called with
    [throwOnError = false] prints a [console.warn] line and resolves to
    [false]; [closeContext] and [closeBrowser] print the [console.error]
    line and resolve to [undefined]; and [waitForRandomTimeout], which has
    no catch, throws the error and prints nothing. *)
Theorem failed_engine_call_policy :
  forall (E : Engine) (o : Operation) (s : env_state E) (c : EngineCall)
         (e : JsVal),
    In (c, Throw e) (engine_calls (trace o s)) ->
    match failure_policy o with
    | LogAndRethrow =>
        outcome o s = Throw e /\ failure_printed LvlError o s c e
    | LogAndReturn v =>
        outcome o s = Normal v /\ failure_printed LvlError o s c e
    | WarnAndReturn v =>
        outcome o s = Normal v /\ failure_printed LvlWarn o s c e
    | LetThrough =>
        outcome o s = Throw e
        /\ forall lvl, console_lines lvl (trace o s) = []
    end.
Proof.
  intros E o s.
  destruct o as [op | [pg] op | [b c p] op]; destruct op;
    try (destruct throwOnError as [[|]|]);
    cbn [failure_policy]; unfold failure_printed.
  all: run_cases.
  all: failed_call.
  all: (split; [reflexivity|]).
  all: try trace_prefix.
  all: intros [ | | ]; reflexivity.
Qed.

Lemma failed_engine_call_policy_witness :
  outcome (E := Scripted.engine)
          (OnPageHandler (PageHandler.new 1%nat)
                         (GoToUrl "invalid-url" None None None))
          (Scripted.mk [Throw (VError "Error" None "Cannot navigate to invalid URL")] [])
  = Throw (VError "Error" None "Cannot navigate to invalid URL").
Proof.
  apply (failed_engine_call_policy Scripted.engine
           (OnPageHandler (PageHandler.new 1%nat)
                          (GoToUrl "invalid-url" None None None))
           (Scripted.mk [Throw (VError "Error" None "Cannot navigate to invalid URL")] [])
           (Method (VObject 1%nat) "goto"
                   [VStr "invalid-url"; PageHandler.waitUntilLoad])
           (VError "Error" None "Cannot navigate to invalid URL")).
  cbn. left. reflexivity.
Defined.

(** ** Waiting *)

Lemma goToUrl_trace_example :
  trace (E := Scripted.engine)
        (OnPageHandler (PageHandler.new 1%nat)
                       (GoToUrl "https://www.example.com" None None None))
        (Scripted.mk [Normal VNull] [(1 # 2)%Q])
  = [ EConsole LvlLog [VStr ("Goto: https://www.example.com" ++ PageHandler.nl)];
      ECall (Method (VObject 1%nat) "goto"
                    [VStr "https://www.example.com"; PageHandler.waitUntilLoad])
            (Normal VNull);
      ECall (Method (VObject 1%nat) "waitForTimeout" [VNum 5500])
            (Normal VUndefined) ].
Proof. reflexivity. Qed.

(** C5, as the spec states it, fails: after [page.goto] has completed,
    [goToUrl] waits on its own, here [page.waitForTimeout(5500)]. *)
Lemma goToUrl_adds_a_wait :
  ~ (forall (E : Engine) (o : Operation), adds_no_wait E o).
Proof.
  intros Hall.
  assert (Hwait : is_wait (Method (VObject 1%nat) "waitForTimeout" [VNum 5500])
                  = false).
  { apply (Hall Scripted.engine
             (OnPageHandler (PageHandler.new 1%nat)
                            (GoToUrl "https://www.example.com" None None None))
             (Scripted.mk [Normal VNull] [(1 # 2)%Q])
             _ (Normal VUndefined)).
    rewrite goToUrl_trace_example. cbn. right. left. reflexivity. }
  discriminate Hwait.
Qed.

(** C5, amended.  The operations of FileManager and BrowserManager, and
    [getElements], [getElementText] and [getElementAttribute] of
    PageHandler, make no [waitForTimeout] call.  [goToUrl], [goBack],
    [goForward], [reloadPage], [clickAndWait], [typeText] and
    [clickElemenWithText] do wait on their own: once their engine call has
    succeeded, the one call that follows is [page.waitForTimeout(d)], with [d] the delay of [waitForRandomTimeout]
    for a draw of [Math.random()] and the operation's [waitMin] and
    [waitMax]. *)
Theorem waiting_policy :
  forall (E : Engine) (o : Operation) (s : env_state E),
    match wait_policy o with
    | NoWait =>
        forall c r, In (c, r) (engine_calls (trace o s)) -> is_wait c = false
    | WaitAfterCall page lo hi =>
        forall c v rest,
          engine_calls (trace o s) = (c, Normal v) :: rest ->
          is_wait c = false
          /\ exists (s1 : env_state E) (answer : Completion JsVal),
              rest = [(Method (VObject page) "waitForTimeout"
                         [VNum (PageHandler.waitTime (fst (math_random E s1)) lo hi)],
                       answer)]
    | TheWait =>
        forall c r, In (c, r) (engine_calls (trace o s)) -> is_wait c = true
    end.
Proof.
  intros E o s.
  destruct o as [op | [pg] op | [b c p] op]; destruct op;
    cbn [wait_policy PageHandler.page].
  all: run_cases.
  all: try (intros ? ? Hin; cbn in Hin;
            repeat match type of Hin with
                   | _ \/ _ => destruct Hin as [Hin | Hin]
                   | False => destruct Hin
                   | (_, _) = (_, _) => injection Hin as <- <-
                   end; reflexivity).
  all: intros c0 v0 rest0 Hcalls; try discriminate Hcalls.
  all: injection Hcalls as <- <- <-.
  all: (split; [reflexivity|]).
  all: match goal with
       | Hd : math_random _ ?s1 = _ |- _ =>
           exists s1; rewrite Hd; eexists; reflexivity
       end.
Qed.

Lemma waiting_policy_witness :
  exists (s1 : Scripted.State) (answer : Completion JsVal),
    [(Method (VObject 1%nat) "waitForTimeout" [VNum 5500], Normal VUndefined)]
    = [(Method (VObject 1%nat) "waitForTimeout"
               [VNum (PageHandler.waitTime (fst (Scripted.draw s1)) 4000 7000)],
        answer)].
Proof.
  apply (waiting_policy Scripted.engine
           (OnPageHandler (PageHandler.new 1%nat)
                          (GoToUrl "https://www.example.com" None None None))
           (Scripted.mk [Normal VNull] [(1 # 2)%Q])
           (Method (VObject 1%nat) "goto"
                   [VStr "https://www.example.com"; PageHandler.waitUntilLoad])
           VNull).
  reflexivity.
Defined.

(** ** Logging of success *)

(** C7, as the spec states it, fails: [getElements] returns what
    [locator.all()] resolved to and prints nothing. *)
Lemma getElements_prints_nothing :
  ~ (forall (E : Engine) (o : Operation), logs_success E o).
Proof.
  intros Hall.
  apply (Hall Scripted.engine
           (OnPageHandler (PageHandler.new 1%nat) (GetElements "div"))
           (Scripted.mk [Normal (VArray [VObject 2%nat; VObject 3%nat])] [])).
  - reflexivity.
  - reflexivity.
Qed.

(** C7, amended.  Every public operation other than [getElements],
    [getElementText], [getElementAttribute] and [waitForRandomTimeout]
    prints at least one [console.log] line in a run that completes normally
    and whose engine calls (at least one) all succeeded; those four print no
    [console.log] line in such a run. *)
Theorem success_logging :
  forall (E : Engine) (o : Operation) (s : env_state E),
    succeeded o s = true ->
    if silent_on_success o
    then console_lines LvlLog (trace o s) = []
    else console_lines LvlLog (trace o s) <> [].
Proof.
  intros E o s.
  destruct o as [op | [pg] op | [b c p] op]; destruct op;
    cbn [silent_on_success]; unfold succeeded.
  all: run_cases.
  all: intros Hok; try discriminate Hok; try reflexivity.
  all: intros Hnil; discriminate Hnil.
Qed.

Lemma success_logging_witness :
  console_lines LvlLog
    (trace (E := Scripted.engine)
       (OnFileManager (WriteFile "out.json" (VStr "[]")))
       (Scripted.mk [Normal VUndefined] []))
  <> [].
Proof.
  apply (success_logging Scripted.engine
           (OnFileManager (WriteFile "out.json" (VStr "[]")))
           (Scripted.mk [Normal VUndefined] [])).
  reflexivity.
Defined.

(** ** Locators *)

(** [page.locator(selector)] returns the same locator in every state of
    every engine, and leaves the engine alone. *)
Lemma locator_run (E : Engine) (T : Type) (h : Handle) (selector : string)
      (hasText : option string) (this : T) (s : env_state E) :
  locator (VObject h) selector hasText this s
  = mkRun (Normal (VLocator h selector hasText)) this s [].
Proof. reflexivity. Qed.

(** Given a locator, [getElementText] asks the engine for its text in the
    state the engine is in when the operation is called, whatever the
    engine. *)
Lemma getElementText_locator_run (E : Engine) (this : PageHandler.PageHandler)
      (h : Handle) (selector : string) (hasText : option string)
      (s : env_state E) :
  let loc := VLocator h selector hasText in
  let answer := engine_call E (Method loc "textContent" []) s in
  completion (PageHandler.getElementText loc this s)
  = match fst answer with Normal v => Normal v | Throw _ => Normal VNull end
  /\ engine_calls (events (PageHandler.getElementText loc this s))
     = [(Method loc "textContent" [], fst answer)].
Proof.
  unfold_operation. engine_answer; split; reflexivity.
Qed.

(** C9.  On the engine with a DOM: a locator made by [page.locator(selector)]
    while the document was [before] and handed to [getElementText],
    [getElementAttribute], [clickAndWait] or [typeText] once the document
    has become [after] is resolved against [after].  With one matching
    element in [after] the operation reads or changes that element; with
    none it reports the engine's timeout and with several its strictness
    error ([getElementText] returning [null] for both). *)
Theorem locator_requeried_at_action_time :
  forall (this : PageHandler.PageHandler) (selector : string)
         (before after : Dom.Document) (loc : JsVal)
         (attributeName text : string),
    completion (locator (E := Dom.engine) (VObject (PageHandler.page this))
                        selector None this before) = Normal loc ->
    let read := PageHandler.getElementText (E := Dom.engine) loc this after in
    let attr := PageHandler.getElementAttribute (E := Dom.engine)
                  loc attributeName this after in
    let clicked := PageHandler.clickAndWait (E := Dom.engine)
                     loc None None this after in
    let typed := PageHandler.typeText (E := Dom.engine)
                   loc text None None None this after in
    match Dom.query after selector None with
    | [el] =>
        completion read = Normal (VStr (Dom.textContent el))
        /\ completion attr = Normal (Dom.getAttribute attributeName el)
        /\ completion clicked = Normal VUndefined
        /\ env_after clicked = Dom.update selector None Dom.click after
        /\ (if Dom.editable el
            then completion typed = Normal (VBool true)
                 /\ env_after typed
                    = Dom.update selector None (Dom.fill text) after
            else completion typed = Throw Dom.NotAnInput
                 /\ env_after typed = after)
    | [] =>
        completion read = Normal VNull
        /\ completion attr = Throw Dom.TimeoutError
        /\ completion clicked = Throw Dom.TimeoutError
        /\ completion typed = Throw Dom.TimeoutError
    | _ =>
        completion read = Normal VNull
        /\ completion attr = Throw Dom.StrictModeViolation
        /\ completion clicked = Throw Dom.StrictModeViolation
        /\ completion typed = Throw Dom.StrictModeViolation
    end.
Proof.
  intros this selector before after loc attributeName text Hloc.
  rewrite locator_run in Hloc. cbn in Hloc. injection Hloc as <-.
  unfold_operation. unfold Dom.call.
  destruct (Dom.query after selector None) as [| el [| el' rest]]; cbn.
  - repeat split.
  - unfold Dom.act_on. cbn.
    destruct (Dom.editable el); cbn; repeat split.
  - repeat split.
Qed.

Lemma locator_requeried_at_action_time_witness :
  completion
    (PageHandler.getElementText (E := Dom.engine)
       (VLocator 1%nat ".testing" None) (PageHandler.new 1%nat)
       [Dom.mkElement ["div"] "Item 1" [] false "" 0;
        Dom.mkElement ["div"; ".testing"] "Item 2, edited" [] false "" 0])
  = Normal (VStr "Item 2, edited").
Proof.
  apply (locator_requeried_at_action_time (PageHandler.new 1%nat) ".testing"
           [Dom.mkElement ["div"] "Item 1" [] false "" 0;
            Dom.mkElement ["div"; ".testing"] "Item 2" [] false "" 0]
           [Dom.mkElement ["div"] "Item 1" [] false "" 0;
            Dom.mkElement ["div"; ".testing"] "Item 2, edited" [] false "" 0]
           (VLocator 1%nat ".testing" None) "href" "hello").
  reflexivity.
Defined.

(** ** The URL helper of the tests *)

Lemma append_last_nonempty (s : string) (c : ascii) :
  exists c' s', s ++ String c "" = String c' s'.
Proof. destruct s as [| c0 s0]; cbn; eauto. Qed.

Lemma normalizeUrl_cons (c c' : ascii) (s : string) :
  normalizeUrl (String c (String c' s)) = String c (normalizeUrl (String c' s)).
Proof. reflexivity. Qed.

(** X1.  [normalizeUrl] removes one trailing slash and nothing else: a URL
    whose last character is a slash loses exactly that character (so a
    second slash before it stays), and any other URL is returned
    unchanged. *)
Theorem normalizeUrl_strips_one_trailing_slash :
  normalizeUrl "" = ""
  /\ forall (s : string) (c : ascii),
      normalizeUrl (s ++ String c "")
      = if Ascii.eqb c "/" then s else s ++ String c "".
Proof.
  split; [reflexivity|].
  induction s as [| c0 s IH]; intros c.
  - cbn. destruct (Ascii.eqb c "/"); reflexivity.
  - destruct (append_last_nonempty s c) as [c' [s' Hs]].
    cbn [append]. rewrite Hs, normalizeUrl_cons, <- Hs, IH.
    destruct (Ascii.eqb c "/"); reflexivity.
Qed.

(** ** The random wait with the bounds the wrong way round *)

(** X3.  With the bounds the wrong way round ([waitMax < waitMin], both
    within [2 ^ 53] of zero and of each other) the delay is still an
    integer between them: it is above [waitMax] and at most [waitMin], for
    every draw of [Math.random()], a double with [0 <= r < 1]. *)
Theorem waitTime_swapped_bounds (r : Q) (waitMin waitMax : Z) :
  - 2 ^ 53 <= waitMax -> waitMax < waitMin -> waitMin <= 2 ^ 53 ->
  waitMin - waitMax <= 2 ^ 53 ->
  Double.representable r = true -> (0 <= r)%Q -> (r < 1)%Q ->
  exists d : Z,
    PageHandler.waitTime r waitMin waitMax = Int d /\ waitMax < d <= waitMin.
Proof.
  intros Hlo Hswap Hhi Hspan Hrep Hr0 Hr1.
  assert (H53 : 1 <= 2 ^ 53) by (pose proof (pow2_pos 53 ltac:(lia)); lia).
  unfold PageHandler.waitTime.
  rewrite (of_Z_exact waitMin), (of_Z_exact waitMax), (of_Z_exact 1) by lia.
  rewrite sub_integers by lia. rewrite add_integers by lia.
  destruct (mul_draw_above r (waitMax - waitMin + 1) Hrep Hr0 Hr1 ltac:(lia))
    as [P [HP [HP0 HPn]]].
  rewrite HP. cbn [Double.floor].
  assert (Hf0 : Qfloor P <= 0).
  { rewrite <- (Qfloor_Z 0). apply Qfloor_resp_le. exact HP0. }
  assert (Hfn : waitMax - waitMin + 1 <= Qfloor P).
  { destruct HPn as [Hz | HPn].
    - assert (Qfloor P <= 0) by exact Hf0.
      assert (0 <= Qfloor P); [| lia].
      rewrite Hz in HP. cbn [Double.mul] in HP.
      rewrite (round_comp _ 0%Q) in HP by ring.
      injection HP as <-. reflexivity.
    - rewrite <- (Qfloor_Z (waitMax - waitMin + 1)).
      apply Qfloor_resp_le. apply Qlt_le_weak. exact HPn. }
  rewrite add_integers by lia. cbn [Double.to_number]. rewrite Qfloor_Z.
  exists (Qfloor P + waitMin). split; [reflexivity | lia].
Qed.

Lemma waitTime_swapped_bounds_witness :
  exists d : Z,
    PageHandler.waitTime (2830429704389399 # 4503599627370496) 7000 3000 = Int d
    /\ 3000 < d <= 7000.
Proof.
  apply (waitTime_swapped_bounds (2830429704389399 # 4503599627370496) 7000 3000).
  - vm_compute. discriminate.
  - vm_compute. reflexivity.
  - vm_compute. discriminate.
  - vm_compute. discriminate.
  - vm_compute. reflexivity.
  - vm_compute. discriminate.
  - vm_compute. reflexivity.
Defined.

(** ** PageHandler: edge cases of the element operations *)

(** X4.  [getElementText] never throws.  Given a selector string, a locator
    or an element handle it makes one [textContent] call and returns its
    value, or [null] when the call fails; given anything else ([null],
    [undefined], a number) it makes no engine call and returns [null]. *)
Theorem getElementText_never_throws :
  forall (E : Engine) (this : PageHandler.PageHandler) (v : JsVal)
         (s : env_state E),
    let r := PageHandler.getElementText v this s in
    is_normal (completion r) = true
    /\ match as_string v, is_engine_object v with
       | None, false =>
           completion r = Normal VNull /\ engine_calls (events r) = []
       | _, _ =>
           exists c,
             calls_member "textContent" c = true
             /\ engine_calls (events r) = [(c, fst (engine_call E c s))]
             /\ completion r = match fst (engine_call E c s) with
                               | Normal text => Normal text
                               | Throw _ => Normal VNull
                               end
       end.
Proof.
  intros E [pg] v s.
  unfold PageHandler.getElementText.
  destruct (as_string v) as [selector |] eqn:Hstr;
    [| destruct (is_engine_object v) eqn:Hobj].
  - unfold_operation.
    destruct (engine_call E (Method (VLocator pg selector None) "textContent" []) s)
      as [[text | e] s'] eqn:Hcall; cbn; split; try reflexivity;
      exists (Method (VLocator pg selector None) "textContent" []);
      rewrite Hcall; repeat split.
  - unfold_operation. rewrite Hobj. cbn.
    destruct (engine_call E (Method v "textContent" []) s)
      as [[text | e] s'] eqn:Hcall; cbn; split; try reflexivity;
      exists (Method v "textContent" []); rewrite Hcall; repeat split.
  - unfold_operation. rewrite Hobj. cbn. repeat split.
Qed.

(** X5.  [getElementAttribute] does not take a selector string: on a string,
    as on any value that is no locator or element handle, it makes no
    engine call, prints its [console.error] line and throws the TypeError
    of calling a missing [getAttribute]. *)
Theorem getElementAttribute_rejects_selector_strings :
  forall (E : Engine) (this : PageHandler.PageHandler) (v : JsVal)
         (attributeName : string) (s : env_state E),
    is_engine_object v = false ->
    let r := PageHandler.getElementAttribute v attributeName this s in
    completion r = Throw (no_method_error "selectorOrLocator" v "getAttribute")
    /\ engine_calls (events r) = []
    /\ console_lines LvlError (events r)
       = [[VStr ("Error getting element attribute: " ++ attributeName)]]
    /\ env_after r = s.
Proof.
  intros E this v attributeName s Hobj.
  unfold_operation. rewrite Hobj. cbn. repeat split.
Qed.

Lemma getElementAttribute_rejects_selector_strings_witness :
  completion
    (PageHandler.getElementAttribute (E := Scripted.engine)
       (VStr ".testing") "href" (PageHandler.new 1%nat)
       (Scripted.mk [Normal (VStr "https://www.example.com")] []))
  = Throw (TypeError "selectorOrLocator.getAttribute is not a function").
Proof.
  apply (getElementAttribute_rejects_selector_strings Scripted.engine
           (PageHandler.new 1%nat) (VStr ".testing") "href"
           (Scripted.mk [Normal (VStr "https://www.example.com")] [])).
  reflexivity.
Defined.

(** X6.  A selector string stands for [page.locator(selector)]:
    [clickAndWait] and [typeText] run identically on the string and on that
    locator (same engine calls, same console lines, same result), and
    [getElementText] makes the same engine call with the same result. *)
Theorem selector_string_is_page_locator :
  forall (E : Engine) (this : PageHandler.PageHandler) (selector text : string)
         (waitMin waitMax : option Z) (throwOnError : option bool)
         (s : env_state E),
    let loc := VLocator (PageHandler.page this) selector None in
    PageHandler.clickAndWait (VStr selector) waitMin waitMax this s
    = PageHandler.clickAndWait loc waitMin waitMax this s
    /\ PageHandler.typeText (VStr selector) text waitMin waitMax throwOnError this s
       = PageHandler.typeText loc text waitMin waitMax throwOnError this s
    /\ completion (PageHandler.getElementText (VStr selector) this s)
       = completion (PageHandler.getElementText loc this s)
    /\ engine_calls (events (PageHandler.getElementText (VStr selector) this s))
       = engine_calls (events (PageHandler.getElementText loc this s))
    /\ env_after (PageHandler.getElementText (VStr selector) this s)
       = env_after (PageHandler.getElementText loc this s).
Proof.
  intros E [pg] selector text waitMin waitMax throwOnError s loc. subst loc.
  repeat split; try reflexivity.
  all: unfold_operation; engine_answer; reflexivity.
Qed.

(** X7.  The boolean of [typeText].  With [throwOnError = false] it never
    throws, and it returns [true] exactly when both engine calls, the fill
    and the wait after it, succeeded: a fill that went through followed by a
    failed wait is reported as [false].  With [throwOnError] omitted or
    [true] it never returns [false]. *)
Theorem typeText_result :
  forall (E : Engine) (this : PageHandler.PageHandler) (v : JsVal)
         (text : string) (waitMin waitMax : option Z) (s : env_state E),
    let quiet := PageHandler.typeText v text waitMin waitMax (Some false) this s in
    completion quiet
    = Normal (VBool match engine_calls (events quiet) with
                    | [(_, Normal _); (_, Normal _)] => true
                    | _ => false
                    end)
    /\ completion (PageHandler.typeText v text waitMin waitMax None this s)
       <> Normal (VBool false)
    /\ completion (PageHandler.typeText v text waitMin waitMax (Some true) this s)
       <> Normal (VBool false).
Proof.
  intros E [pg] v text waitMin waitMax s.
  repeat split.
  all: run_cases; try reflexivity; discriminate.
Qed.

(** ** Where an operation stops *)

(** X8.  Every public operation except [closeBrowser] stops at its first
    failed engine call: in its list of engine calls only the last one can
    have failed.  In particular a navigation, click or fill that failed is
    not followed by the random wait. *)
Theorem operations_stop_at_first_failure :
  forall (E : Engine) (o : Operation) (s : env_state E),
    continues_after_failure o = false ->
    stops_at_failure (engine_calls (trace o s)) = true.
Proof.
  intros E o s.
  destruct o as [op | [pg] op | [b c p] op]; destruct op;
    cbn [continues_after_failure]; try discriminate; intros _.
  all: run_cases; reflexivity.
Qed.

Lemma operations_stop_at_first_failure_witness :
  stops_at_failure
    (engine_calls
       (trace (E := Scripted.engine)
          (OnPageHandler (PageHandler.new 1%nat)
                         (ClickAndWait (VStr "#two") None None))
          (Scripted.mk [Throw (VError "TimeoutError" None "Timeout")] [])))
  = true.
Proof.
  apply (operations_stop_at_first_failure Scripted.engine
           (OnPageHandler (PageHandler.new 1%nat)
                          (ClickAndWait (VStr "#two") None None))
           (Scripted.mk [Throw (VError "TimeoutError" None "Timeout")] [])).
  reflexivity.
Defined.

(** ** BrowserManager: the life cycle *)

(** The run of [closeBrowser] on a manager whose browser and context are
    engine objects. *)
Lemma closeBrowser_run_on_objects :
  forall (E : Engine) (this : BrowserManager.BrowserManager) (s : env_state E),
    is_engine_object (BrowserManager.browser this) = true ->
    is_engine_object (BrowserManager.context this) = true ->
    let first := engine_call E (Method (BrowserManager.context this) "close" []) s in
    let second := engine_call E (Method (BrowserManager.browser this) "close" [])
                              (snd first) in
    engine_calls (events (BrowserManager.closeBrowser this s))
    = [ (Method (BrowserManager.context this) "close" [], fst first);
        (Method (BrowserManager.browser this) "close" [], fst second) ]
    /\ env_after (BrowserManager.closeBrowser this s) = snd second.
Proof.
  intros E [b c p] s Hb Hc. cbn in Hb, Hc.
  assert (Htb : truthy b = true) by (destruct b; try discriminate; reflexivity).
  assert (Htc : truthy c = true) by (destruct c; try discriminate; reflexivity).
  unfold_operation. rewrite Htb. cbn. rewrite Htc. cbn. rewrite Hc. cbn.
  destruct (engine_call E (Method c "close" []) s) as [[v1 | e1] s1]; cbn;
    rewrite Hb; cbn;
    destruct (engine_call E (Method b "close" []) s1) as [[v2 | e2] s2]; cbn;
    split; reflexivity.
Qed.


(** X9.  On a manager that holds a browser and a context, [closeBrowser]
    closes the context first and the browser second, and it closes the
    browser whatever closing the context answered. *)
Theorem closeBrowser_closes_context_then_browser :
  forall (E : Engine) (this : BrowserManager.BrowserManager) (s : env_state E),
    is_engine_object (BrowserManager.browser this) = true ->
    is_engine_object (BrowserManager.context this) = true ->
    let first := engine_call E (Method (BrowserManager.context this) "close" []) s in
    let second := engine_call E (Method (BrowserManager.browser this) "close" [])
                              (snd first) in
    engine_calls (events (BrowserManager.closeBrowser this s))
    = [ (Method (BrowserManager.context this) "close" [], fst first);
        (Method (BrowserManager.browser this) "close" [], fst second) ]
    /\ env_after (BrowserManager.closeBrowser this s) = snd second.
Proof.
  intros E this s Hb Hc. exact (closeBrowser_run_on_objects E this s Hb Hc).
Qed.

Lemma closeBrowser_closes_context_then_browser_witness :
  engine_calls
    (events (BrowserManager.closeBrowser (E := Scripted.engine)
               (BrowserManager.mk (VObject 1%nat) (VObject 2%nat) (VObject 3%nat))
               (Scripted.mk [Throw (VError "Error" None "Target closed")] [])))
  = [ (Method (VObject 2%nat) "close" [],
       Throw (VError "Error" None "Target closed"));
      (Method (VObject 1%nat) "close" [], Normal VUndefined) ].
Proof.
  apply (closeBrowser_closes_context_then_browser Scripted.engine
           (BrowserManager.mk (VObject 1%nat) (VObject 2%nat) (VObject 3%nat))
           (Scripted.mk [Throw (VError "Error" None "Target closed")] [])).
  - reflexivity.
  - reflexivity.
Defined.

(** X10.  [closeContext] and [closeBrowser] never throw: whatever the
    fields hold and whatever the engine answers, they resolve to
    [undefined]. *)
Theorem close_operations_never_throw :
  forall (E : Engine) (this : BrowserManager.BrowserManager) (s : env_state E),
    completion (BrowserManager.closeContext this s) = Normal VUndefined
    /\ completion (BrowserManager.closeBrowser this s) = Normal VUndefined.
Proof.
  intros E [b c p] s. split.
  all: run_cases; reflexivity.
Qed.

(** X11.  Only the two close operations close anything: every engine call
    of [closeContext] and [closeBrowser] is a [close] call, and no other
    public operation makes one.  So [launchBrowser] and [connectOverCDP] on
    a manager that already holds a browser replace it without closing it. *)
Theorem only_close_operations_close :
  forall (E : Engine) (o : Operation) (s : env_state E) (c : EngineCall)
         (r : Completion JsVal),
    In (c, r) (engine_calls (trace o s)) ->
    calls_member "close" c = closes o.
Proof.
  intros E o s.
  destruct o as [op | [pg] op | [b c p] op]; destruct op; cbn [closes].
  all: run_cases.
  all: intros ? ? Hin; cbn in Hin;
    repeat match type of Hin with
           | _ \/ _ => destruct Hin as [Hin | Hin]
           | False => destruct Hin
           | (_, _) = (_, _) => injection Hin as <- <-
           end; reflexivity.
Qed.

Lemma only_close_operations_close_witness :
  calls_member "close" (Static "chromium" "launch" [VUndefined])
  = closes (OnBrowserManager
              (BrowserManager.mk (VObject 1%nat) (VObject 2%nat) (VObject 3%nat))
              (LaunchBrowser VUndefined None)).
Proof.
  apply (only_close_operations_close Scripted.engine
           (OnBrowserManager
              (BrowserManager.mk (VObject 1%nat) (VObject 2%nat) (VObject 3%nat))
              (LaunchBrowser VUndefined None))
           (Scripted.mk [Normal (VObject 4%nat); Normal (VObject 5%nat);
                         Normal (VObject 6%nat)] [])
           (Static "chromium" "launch" [VUndefined]) (Normal (VObject 4%nat))).
  cbn. left. reflexivity.
Defined.

(** X12.  The fields after [launchBrowser], read off its engine calls.  When
    the three calls succeed the fields hold the browser, the context and the
    page they returned, and the page is the result.  When a call fails, or
    the value returned by the previous one has no such method, the operation
    throws and the fields assigned so far stay: a browser that was launched
    stays in [this.browser] although the launch failed. *)
Theorem launchBrowser_fields :
  forall (E : Engine) (this : BrowserManager.BrowserManager)
         (launchOptions : JsVal) (contextOptions : option JsVal)
         (s : env_state E),
    let r := BrowserManager.launchBrowser launchOptions contextOptions this s in
    let kept_context := BrowserManager.context this in
    let kept_page := BrowserManager.page this in
    match engine_calls (events r) with
    | [(_, Normal b); (_, Normal c); (_, Normal p)] =>
        completion r = Normal p
        /\ this_after r = BrowserManager.mk b c p
    | [(_, Normal b); (_, Normal c); (_, Throw e)] =>
        completion r = Throw e
        /\ this_after r = BrowserManager.mk b c kept_page
    | [(_, Normal b); (_, Normal c)] =>
        completion r = Throw (no_method_error "this.context" c "newPage")
        /\ this_after r = BrowserManager.mk b c kept_page
    | [(_, Normal b); (_, Throw e)] =>
        completion r = Throw e
        /\ this_after r = BrowserManager.mk b kept_context kept_page
    | [(_, Normal b)] =>
        completion r = Throw (no_method_error "this.browser" b "newContext")
        /\ this_after r = BrowserManager.mk b kept_context kept_page
    | [(_, Throw e)] =>
        completion r = Throw e /\ this_after r = this
    | _ => False
    end.
Proof.
  intros E [b c p] launchOptions contextOptions s.
  run_cases; split; reflexivity.
Qed.

(** X13.  [newPage(true)] leaves the fields alone and returns the new page;
    [newPage()] and [newPage(false)] store the new page in [this.page] and
    return it.  When the page cannot be made the fields are unchanged. *)
Theorem newPage_fields :
  forall (E : Engine) (this : BrowserManager.BrowserManager)
         (isolatePage : option bool) (s : env_state E),
    let r := BrowserManager.newPage isolatePage this s in
    match completion r with
    | Normal p =>
        this_after r
        = if default false isolatePage
          then this
          else BrowserManager.mk (BrowserManager.browser this)
                                 (BrowserManager.context this) p
    | Throw _ => this_after r = this
    end.
Proof.
  intros E [b c p] isolatePage s.
  run_cases; reflexivity.
Qed.

(** X14.  A manager that was never launched: [newContext] and [newPage]
    reach no engine, print their [console.error] line and nothing else, and
    throw the TypeError of reading a method of [null]; [closeContext] and
    [closeBrowser] do nothing at all.  None of them changes a field. *)
Theorem operations_before_launch :
  forall (E : Engine) (contextOptions : JsVal) (isolatePage : option bool)
         (s : env_state E),
    let created := BrowserManager.newContext contextOptions BrowserManager.new s in
    let opened := BrowserManager.newPage isolatePage BrowserManager.new s in
    let closed := BrowserManager.closeContext BrowserManager.new s in
    let quit := BrowserManager.closeBrowser BrowserManager.new s in
    let no_newContext :=
      TypeError "Cannot read properties of null (reading 'newContext')" in
    let no_newPage :=
      TypeError "Cannot read properties of null (reading 'newPage')" in
    (completion created = Throw no_newContext
     /\ events created
        = [EConsole LvlError [VStr "Error creating context: "; no_newContext]]
     /\ this_after created = BrowserManager.new)
    /\ (completion opened = Throw no_newPage
        /\ engine_calls (events opened) = []
        /\ console_lines LvlError (events opened)
           = [[VStr "Error creating new page: "; no_newPage]]
        /\ console_lines LvlWarn (events opened) = []
        /\ console_lines LvlLog (events opened)
           = (if default false isolatePage
              then [[VStr "Creating new isolated page"]]
              else [])
        /\ this_after opened = BrowserManager.new)
    /\ (events closed = [] /\ this_after closed = BrowserManager.new)
    /\ (events quit = [] /\ this_after quit = BrowserManager.new).
Proof.
  intros E contextOptions isolatePage s.
  repeat split; try reflexivity.
  all: destruct isolatePage as [[|]|]; reflexivity.
Qed.

(** X15.  [connectOverCDP] with a context index outside the array
    [browser.contexts()] returned (negative, or not below its length):
    [this.context] becomes [undefined], no page is asked for, and the
    operation throws the TypeError of reading [newPage] of [undefined],
    while [this.browser] keeps the browser it connected to. *)
Theorem connectOverCDP_index_out_of_range :
  forall (E : Engine) (this : BrowserManager.BrowserManager)
         (endpoint : string) (contextIndex : Z)
         (s s1 s2 : env_state E) (b : JsVal) (contexts : list JsVal),
    engine_call E (Static "chromium" "connectOverCDP" [VStr endpoint]) s
    = (Normal b, s1) ->
    is_engine_object b = true ->
    engine_call E (Method b "contexts" []) s1 = (Normal (VArray contexts), s2) ->
    contextIndex < 0 \/ Z.of_nat (List.length contexts) <= contextIndex ->
    let r := BrowserManager.connectOverCDP endpoint (Some contextIndex) this s in
    completion r
    = Throw (TypeError "Cannot read properties of undefined (reading 'newPage')")
    /\ this_after r = BrowserManager.mk b VUndefined (BrowserManager.page this)
    /\ engine_calls (events r)
       = [ (Static "chromium" "connectOverCDP" [VStr endpoint], Normal b);
           (Method b "contexts" [], Normal (VArray contexts)) ]
    /\ env_after r = s2.
Proof.
  intros E [b0 c0 p0] endpoint contextIndex s s1 s2 b contexts
         Hconnect Hobj Hcontexts Hrange.
  assert (Hat : array_at (VArray contexts) contextIndex = VUndefined).
  { unfold array_at. destruct (contextIndex <? 0) eqn:Hneg; [reflexivity|].
    apply Z.ltb_ge in Hneg. apply nth_overflow. lia. }
  unfold_operation. rewrite Hconnect. cbn. rewrite Hobj. cbn.
  rewrite Hcontexts. cbn.
  change (if contextIndex <? 0
          then VUndefined
          else nth (Z.to_nat contextIndex) contexts VUndefined)
    with (array_at (VArray contexts) contextIndex).
  rewrite Hat. cbn. repeat split.
Qed.

Lemma connectOverCDP_index_out_of_range_witness :
  completion
    (BrowserManager.connectOverCDP (E := Scripted.engine)
       "http://localhost:9222" (Some 1) BrowserManager.new
       (Scripted.mk [Normal (VObject 1%nat); Normal (VArray [VObject 2%nat])] []))
  = Throw (TypeError "Cannot read properties of undefined (reading 'newPage')").
Proof.
  apply (connectOverCDP_index_out_of_range Scripted.engine BrowserManager.new
           "http://localhost:9222" 1
           (Scripted.mk [Normal (VObject 1%nat); Normal (VArray [VObject 2%nat])] [])
           (Scripted.mk [Normal (VArray [VObject 2%nat])] [])
           (Scripted.mk [] [])
           (VObject 1%nat) [VObject 2%nat]).
  - reflexivity.
  - reflexivity.
  - reflexivity.
  - right. cbn. lia.
Defined.

(** X16.  [connectOverCDP] takes the context out of the browser it
    connected to: once [browser.contexts()] has answered with an array,
    [this.context] is the element of that array at [contextIndex] (at 0 when
    the index is omitted) and [this.browser] the connected browser, whether
    or not the page that follows can be opened. *)
Theorem connectOverCDP_selects_context :
  forall (E : Engine) (this : BrowserManager.BrowserManager)
         (endpoint : string) (contextIndex : option Z)
         (s s1 s2 : env_state E) (b : JsVal) (contexts : list JsVal),
    engine_call E (Static "chromium" "connectOverCDP" [VStr endpoint]) s
    = (Normal b, s1) ->
    is_engine_object b = true ->
    engine_call E (Method b "contexts" []) s1 = (Normal (VArray contexts), s2) ->
    let r := BrowserManager.connectOverCDP endpoint contextIndex this s in
    let chosen := array_at (VArray contexts) (default 0 contextIndex) in
    BrowserManager.browser (this_after r) = b
    /\ BrowserManager.context (this_after r) = chosen
    /\ match completion r with
       | Normal p => BrowserManager.page (this_after r) = p
       | Throw _ => BrowserManager.page (this_after r) = BrowserManager.page this
       end.
Proof.
  intros E [b0 c0 p0] endpoint contextIndex s s1 s2 b contexts
         Hconnect Hobj Hcontexts.
  unfold_operation. rewrite Hconnect. cbn. rewrite Hobj. cbn.
  rewrite Hcontexts. cbn.
  change (if default 0 contextIndex <? 0
          then VUndefined
          else nth (Z.to_nat (default 0 contextIndex)) contexts VUndefined)
    with (array_at (VArray contexts) (default 0 contextIndex)).
  destruct (is_engine_object (array_at (VArray contexts) (default 0 contextIndex)));
    cbn; [engine_answer|]; repeat split.
Qed.

Lemma connectOverCDP_selects_context_witness :
  BrowserManager.context
    (this_after
       (BrowserManager.connectOverCDP (E := Scripted.engine)
          "http://localhost:9222" None BrowserManager.new
          (Scripted.mk [Normal (VObject 1%nat);
                        Normal (VArray [VObject 2%nat; VObject 3%nat]);
                        Normal (VObject 4%nat)] [])))
  = VObject 2%nat.
Proof.
  apply (connectOverCDP_selects_context Scripted.engine BrowserManager.new
           "http://localhost:9222" None
           (Scripted.mk [Normal (VObject 1%nat);
                         Normal (VArray [VObject 2%nat; VObject 3%nat]);
                         Normal (VObject 4%nat)] [])
           (Scripted.mk [Normal (VArray [VObject 2%nat; VObject 3%nat]);
                         Normal (VObject 4%nat)] [])
           (Scripted.mk [Normal (VObject 4%nat)] [])
           (VObject 1%nat) [VObject 2%nat; VObject 3%nat]).
  - reflexivity.
  - reflexivity.
  - reflexivity.
Defined.

(** X17.  After [launchBrowser] has launched a browser and made a context,
    [closeBrowser] closes exactly these two, the context first, also when
    the launch itself failed at its last step, opening the page. *)
Theorem closeBrowser_after_launchBrowser :
  forall (E : Engine) (this : BrowserManager.BrowserManager)
         (launchOptions : JsVal) (contextOptions : option JsVal)
         (s : env_state E) (launch makeContext : EngineCall) (b c : JsVal)
         (last : EngineCall * Completion JsVal),
    let launched := BrowserManager.launchBrowser launchOptions contextOptions this s in
    engine_calls (events launched)
    = [(launch, Normal b); (makeContext, Normal c); last] ->
    exists r1 r2,
      engine_calls
        (events (BrowserManager.closeBrowser (this_after launched)
                                             (env_after launched)))
      = [(Method c "close" [], r1); (Method b "close" [], r2)].
Proof.
  intros E [b0 c0 p0] launchOptions contextOptions s launch makeContext b c last.
  cbn zeta. unfold BrowserManager.launchBrowser.
  unfold call_static, call_method, BrowserManager.assign_browser,
    BrowserManager.assign_context, BrowserManager.assign_page, try_catch, bind,
    ret, throw, get_this, set_this, perform, console, BrowserManager.chromium.
  cbn.
  destruct (engine_call E (Static "chromium" "launch" [launchOptions]) s)
    as [[b' | e] s1]; cbn; [| discriminate].
  destruct (is_engine_object b') eqn:Hb; cbn; [| discriminate].
  destruct (engine_call E (Method b' "newContext" _) s1) as [[c' | e] s2];
    cbn; [| discriminate].
  destruct (is_engine_object c') eqn:Hc; cbn; [| discriminate].
  destruct (engine_call E (Method c' "newPage" []) s2) as [[p' | e] s3]; cbn;
    intros Hcalls; injection Hcalls as _ <- _ <- _.
  - destruct (closeBrowser_run_on_objects E
                (BrowserManager.mk b' c' p') s3 Hb Hc) as [Hclose _].
    cbn in Hclose. rewrite Hclose. eauto.
  - destruct (closeBrowser_run_on_objects E
                (BrowserManager.mk b' c' p0) s3 Hb Hc) as [Hclose _].
    cbn in Hclose. rewrite Hclose. eauto.
Qed.

Lemma closeBrowser_after_launchBrowser_witness :
  exists r1 r2,
    engine_calls
      (events
         (BrowserManager.closeBrowser (E := Scripted.engine)
            (BrowserManager.mk (VObject 1%nat) (VObject 2%nat) VNull)
            (Scripted.mk [] [])))
    = [(Method (VObject 2%nat) "close" [], r1);
       (Method (VObject 1%nat) "close" [], r2)].
Proof.
  apply (closeBrowser_after_launchBrowser Scripted.engine BrowserManager.new
           VUndefined None
           (Scripted.mk [Normal (VObject 1%nat); Normal (VObject 2%nat);
                         Throw (VError "Error" None "Target closed")] [])
           (Static "chromium" "launch" [VUndefined])
           (Method (VObject 1%nat) "newContext" [VRecord []])
           (VObject 1%nat) (VObject 2%nat)
           (Method (VObject 2%nat) "newPage" [],
            Throw (VError "Error" None "Target closed"))).
  reflexivity.
Defined.

(** ** FileManager: what is written and what is printed *)

(** X18.  [saveJson] serialises only when asked to.  With a falsy
    [prettyPrint] the data goes to [fs.writeFile] as it was given; with a
    truthy one it is replaced by [JSON.stringify(data, null, 2)], and when
    that throws nothing is written: the error is printed and thrown. *)
Theorem saveJson_written_data :
  forall (E : Engine) (filePath : string) (data prettyPrint : JsVal)
         (s : env_state E),
    let r := FileManager.saveJson filePath data prettyPrint tt s in
    let write d := Static "fs" "writeFile" [VStr filePath; d] in
    if truthy prettyPrint
    then match json_stringify E data 2 with
         | Normal text =>
             engine_calls (events r)
             = [(write text, fst (engine_call E (write text) s))]
         | Throw e =>
             engine_calls (events r) = []
             /\ completion r = Throw e
             /\ console_lines LvlError (events r)
                = [[VStr ("Error saving JSON file " ++ filePath ++ ": "
                          ++ to_str e)]]
         end
    else engine_calls (events r)
         = [(write data, fst (engine_call E (write data) s))].
Proof.
  intros E filePath data prettyPrint s.
  unfold_operation.
  destruct (truthy prettyPrint); cbn;
    [destruct (json_stringify E data 2) as [text | e]; cbn|].
  - engine_answer; reflexivity.
  - repeat split.
  - engine_answer; reflexivity.
Qed.

(** X19.  Every [deletePath] starts with an error line.  Whatever the path
    and whether or not the delete then works, the first thing a run does is
    print the [console.error] line of the existence check that failed, and
    the second is the call of [fs.rm]. *)
Theorem deletePath_console :
  forall (E : Engine) (path : string) (recursive : option bool)
         (s : env_state E),
    let r := FileManager.deletePath path recursive tt s in
    let rm := Static "fs" "rm"
                [VStr path; VRecord [("recursive", VBool (default false recursive))]] in
    let check_failed :=
      [VStr ("Error verifying existance of path " ++ path
             ++ ": TypeError: fs.existsSync is not a function")] in
    exists rest,
      events r
      = EConsole LvlError check_failed :: ECall rm (fst (engine_call E rm s)) :: rest.
Proof.
  intros E path recursive s.
  unfold FileManager.deletePath, try_catch, bind, promise_of.
  rewrite pathExist_run. cbn. unfold perform, FileManager.fs.
  engine_answer; eexists; reflexivity.
Qed.

(** ** PageHandler: the two operations on a selector only *)

(** X20.  [getElements] is the engine's [page.locator(selector).all()]: one
    call, on the locator of the handler's page with no text filter; its
    value is returned as it is and its error is thrown again after one
    [console.error] line.  Nothing else is printed. *)
Theorem getElements_is_locator_all :
  forall (E : Engine) (this : PageHandler.PageHandler) (selector : string)
         (s : env_state E),
    let r := PageHandler.getElements selector this s in
    let all := Method (VLocator (PageHandler.page this) selector None) "all" [] in
    engine_calls (events r) = [(all, fst (engine_call E all s))]
    /\ completion r = fst (engine_call E all s)
    /\ env_after r = snd (engine_call E all s)
    /\ console_lines LvlLog (events r) = []
    /\ console_lines LvlWarn (events r) = []
    /\ List.length (console_lines LvlError (events r))
       = (if is_normal (fst (engine_call E all s)) then 0 else 1)%nat.
Proof.
  intros E [pg] selector s.
  unfold_operation. engine_answer; repeat split.
Qed.

(** X21.  [clickElemenWithText] clicks the locator of the selector filtered
    by the text.  When the click fails, the [console.error] line it prints
    is made of the element text alone: it is the same line whatever the
    error was, and the error itself reaches the caller only as the thrown
    value. *)
Theorem clickElemenWithText_error_line :
  forall (E : Engine) (this : PageHandler.PageHandler)
         (selector elementText : string) (waitMin waitMax : option Z)
         (s : env_state E) (e : JsVal) (s1 : env_state E),
    let click := Method (VLocator (PageHandler.page this) selector
                                  (Some elementText)) "click" [] in
    engine_call E click s = (Throw e, s1) ->
    let r := PageHandler.clickElemenWithText selector elementText
               waitMin waitMax this s in
    completion r = Throw e
    /\ events r
       = [ ECall click (Throw e);
           EConsole LvlError
             [VStr ("Error clicking element with text: " ++ elementText
                    ++ ", error: " ++ elementText)] ].
Proof.
  intros E [pg] selector elementText waitMin waitMax s e s1 click Hclick.
  subst click. cbn in Hclick.
  unfold_operation. rewrite Hclick. cbn. split; reflexivity.
Qed.

Lemma clickElemenWithText_error_line_witness :
  completion
    (PageHandler.clickElemenWithText (E := Scripted.engine)
       ".test" "Run 2" None None (PageHandler.new 1%nat)
       (Scripted.mk [Throw (VError "TimeoutError" None "Timeout 30000ms exceeded.")] []))
  = Throw (VError "TimeoutError" None "Timeout 30000ms exceeded.").
Proof.
  apply (clickElemenWithText_error_line Scripted.engine (PageHandler.new 1%nat)
           ".test" "Run 2" None None
           (Scripted.mk [Throw (VError "TimeoutError" None "Timeout 30000ms exceeded.")] [])
           (VError "TimeoutError" None "Timeout 30000ms exceeded.")
           (Scripted.mk [] [])).
  reflexivity.
Defined.

(** ** BrowserManager: making a context *)

(** X22.  On a manager that holds a browser and no context ([null], or the
    [undefined] left by [connectOverCDP] with an index out of range),
    [newContext] makes one call, [browser.newContext(contextOptions)]; when
    it succeeds the new context is stored in [this.context] and returned,
    when it fails the error is thrown and the fields are unchanged. *)
Theorem newContext_creates_when_none :
  forall (E : Engine) (this : BrowserManager.BrowserManager)
         (contextOptions : JsVal) (s : env_state E),
    truthy (BrowserManager.context this) = false ->
    is_engine_object (BrowserManager.browser this) = true ->
    let r := BrowserManager.newContext contextOptions this s in
    let make := Method (BrowserManager.browser this) "newContext" [contextOptions] in
    engine_calls (events r) = [(make, fst (engine_call E make s))]
    /\ match fst (engine_call E make s) with
       | Normal c =>
           completion r = Normal c
           /\ this_after r
              = BrowserManager.mk (BrowserManager.browser this) c
                                  (BrowserManager.page this)
       | Throw e => completion r = Throw e /\ this_after r = this
       end.
Proof.
  intros E [b c p] contextOptions s Hnone Hobj. cbn in Hnone, Hobj.
  unfold_operation. rewrite Hnone. cbn. rewrite Hobj. cbn.
  engine_answer; repeat split.
Qed.

Lemma newContext_creates_when_none_witness :
  engine_calls
    (events (BrowserManager.newContext (E := Scripted.engine) (VRecord [])
               (BrowserManager.mk (VObject 1%nat) VUndefined VNull)
               (Scripted.mk [Normal (VObject 2%nat)] [])))
  = [(Method (VObject 1%nat) "newContext" [VRecord []], Normal (VObject 2%nat))].
Proof.
  apply (newContext_creates_when_none Scripted.engine
           (BrowserManager.mk (VObject 1%nat) VUndefined VNull) (VRecord [])
           (Scripted.mk [Normal (VObject 2%nat)] [])).
  - reflexivity.
  - reflexivity.
Defined.

(** ** FileManager: the callers of deletePath *)

(** X23.  [deleteFile] never asks for a recursive removal and
    [deleteDirectory] always does: the one engine call of
    [deleteFile(path)] is [fs.rm(path, { recursive: false })] and that of
    [deleteDirectory(path)] is [fs.rm(path, { recursive: true })]. *)
Theorem deleteFile_and_deleteDirectory_flags :
  forall (E : Engine) (path : string) (s : env_state E),
    let rm flag := Static "fs" "rm"
                     [VStr path; VRecord [("recursive", VBool flag)]] in
    engine_calls (events (FileManager.deleteFile path tt s))
    = [(rm false, fst (engine_call E (rm false) s))]
    /\ engine_calls (events (FileManager.deleteDirectory path tt s))
       = [(rm true, fst (engine_call E (rm true) s))].
Proof.
  intros E path s.
  unfold FileManager.deleteFile, FileManager.deleteDirectory,
    FileManager.deletePath, try_catch, bind, promise_of.
  rewrite !pathExist_run. cbn. unfold perform, FileManager.fs.
  destruct (engine_call E (Static "fs" "rm"
              [VStr path; VRecord [("recursive", VBool false)]]) s)
    as [[v | e] s1]; cbn;
    destruct (engine_call E (Static "fs" "rm"
                [VStr path; VRecord [("recursive", VBool true)]]) s)
      as [[v' | e'] s1']; cbn; repeat split.
Qed.

(** ** The pause of the waiting operations *)

(** X24.  The pause of every waiting operation respects its bounds.  On an
    engine whose [Math.random()] gives doubles in [0, 1), each
    [waitForTimeout] call made by [goToUrl], [goBack], [goForward],
    [reloadPage], [clickAndWait], [typeText] or [clickElemenWithText] is on
    the handler's page, for an integer delay between the operation's
    [waitMin] and [waitMax], when these are integers that double arithmetic
    holds exactly; that is so of the defaults: 4000..7000 ms for the
    navigations, 3000..7000 for the clicks and 3000..8000 for [typeText]. *)
Theorem operation_pause_within_bounds :
  forall (E : Engine) (o : Operation) (s : env_state E) (page : Handle)
         (lo hi : Z) (c : EngineCall) (r : Completion JsVal),
    (forall s', Double.representable (fst (math_random E s')) = true
                /\ (0 <= fst (math_random E s'))%Q
                /\ (fst (math_random E s') < 1)%Q) ->
    wait_policy o = WaitAfterCall page lo hi ->
    - 2 ^ 53 <= lo -> lo <= hi -> hi <= 2 ^ 53 -> hi - lo < 2 ^ 53 ->
    In (c, r) (engine_calls (trace o s)) ->
    is_wait c = true ->
    exists d : Z,
      c = Method (VObject page) "waitForTimeout" [VNum d] /\ lo <= d <= hi.
Proof.
  intros E o s page lo hi c r Hrandom Hpolicy Hlo Hle Hhi Hspan.
  revert c r.
  destruct o as [op | [pg] op | [b0 c0 p0] op]; destruct op;
    cbn [wait_policy PageHandler.page] in Hpolicy; try discriminate Hpolicy;
    injection Hpolicy as <- <- <-.
  all: run_cases.
  all: intros call answer Hin Hwait; cbn in Hin;
    repeat match type of Hin with
           | _ \/ _ => destruct Hin as [Hin | Hin]
           | False => destruct Hin
           | (_, _) = (_, _) => injection Hin as <- <-
           end; try discriminate Hwait.
  all: match goal with
       | Hd : math_random _ ?s1 = (?q, _) |- _ =>
           destruct (Hrandom s1) as [Hrep [H0 H1]];
           rewrite Hd in Hrep, H0, H1; cbn [fst] in Hrep, H0, H1;
           destruct (waitTime_range q _ _ Hlo Hle Hhi Hspan Hrep H0 H1)
             as [d [Hd' Hbounds]];
           exists d; rewrite Hd'; split; [reflexivity | exact Hbounds]
       end.
Qed.

Lemma operation_pause_within_bounds_witness :
  exists d : Z,
    Method (VObject 1%nat) "waitForTimeout" [VNum 4000]
    = Method (VObject 1%nat) "waitForTimeout" [VNum d]
    /\ 4000 <= d <= 7000.
Proof.
  apply (operation_pause_within_bounds Dom.engine
           (OnPageHandler (PageHandler.new 1%nat)
                          (GoToUrl "https://www.example.com" None None None))
           [] 1%nat 4000 7000
           (Method (VObject 1%nat) "waitForTimeout" [VNum 4000])
           (Normal VUndefined)).
  - intros s'. cbn. repeat split; vm_compute; try reflexivity; discriminate.
  - reflexivity.
  - vm_compute. discriminate.
  - vm_compute. discriminate.
  - vm_compute. discriminate.
  - vm_compute. reflexivity.
  - vm_compute. right. left. reflexivity.
  - reflexivity.
Defined.

(** ** Pass-through, operation by operation *)



(** ** The context field *)

Lemma connectOverCDP_leaves_undefined :
  this_after
    (BrowserManager.connectOverCDP (E := Scripted.engine)
       "http://localhost:9222" (Some 1) BrowserManager.new
       (Scripted.mk [Normal (VObject 1%nat); Normal (VArray [VObject 2%nat]);
                     Normal (VObject 3%nat)] []))
  = BrowserManager.mk (VObject 1%nat) VUndefined VNull.
Proof. reflexivity. Qed.

(** C8, as the claim states it, fails: a context field that is [undefined],
    which is what [connectOverCDP] leaves behind for an index outside the
    browser's contexts, is not [null], and on it [newContext] calls
    [browser.newContext] and returns the context just made. *)
Lemma newContext_replaces_undefined_context :
  ~ (forall E : Engine, reuses_every_non_null_context E).
Proof.
  intros Hall.
  destruct (Hall Scripted.engine
              (BrowserManager.mk (VObject 1%nat) VUndefined VNull) (VRecord [])
              (Scripted.mk [Normal (VObject 3%nat)] []))
    as [Hsame _].
  - cbn. discriminate.
  - discriminate Hsame.
Qed.

(** C8, amended.  [closeContext] and [closeBrowser] leave the browser,
    context and page fields of the manager as they were, whatever they hold.
    So on a manager whose context field holds a context (any truthy value)
    [newContext] returns that very context, makes no engine call and changes
    no field, in every state of the engine and in particular right after
    [closeContext] or [closeBrowser].  A context field that is [null] or
    [undefined] counts as no context: then [newContext] calls
    [browser.newContext(contextOptions)] when the browser field holds a
    browser, and throws the TypeError of the missing method when it does
    not. *)
Theorem closing_keeps_fields_and_held_context_is_reused :
  forall (E : Engine) (this : BrowserManager.BrowserManager)
         (contextOptions : JsVal) (s s' : env_state E),
    let closed := BrowserManager.closeContext this s in
    let quit := BrowserManager.closeBrowser this s in
    let r := BrowserManager.newContext contextOptions this s' in
    let make := Method (BrowserManager.browser this) "newContext" [contextOptions] in
    this_after closed = this
    /\ this_after quit = this
    /\ if truthy (BrowserManager.context this)
       then completion r = Normal (BrowserManager.context this)
            /\ this_after r = this
            /\ engine_calls (events r) = []
            /\ completion (BrowserManager.newContext contextOptions
                             (this_after closed) (env_after closed))
               = Normal (BrowserManager.context this)
            /\ completion (BrowserManager.newContext contextOptions
                             (this_after quit) (env_after quit))
               = Normal (BrowserManager.context this)
       else if is_engine_object (BrowserManager.browser this)
            then engine_calls (events r) = [(make, fst (engine_call E make s'))]
                 /\ completion r = fst (engine_call E make s')
            else engine_calls (events r) = []
                 /\ completion r
                    = Throw (no_method_error "this.browser"
                               (BrowserManager.browser this) "newContext").
Proof.
  intros E this contextOptions s s' closed quit r make.
  assert (Hclosed : this_after closed = this) by apply closeContext_this.
  assert (Hquit : this_after quit = this) by apply closeBrowser_this.
  split; [exact Hclosed | split; [exact Hquit |]].
  destruct (truthy (BrowserManager.context this)) eqn:Hctx.
  - subst r. rewrite Hclosed, Hquit.
    rewrite !newContext_existing by assumption. repeat split.
  - subst r make. destruct this as [b c p]. cbn in Hctx |- *.
    unfold_operation. rewrite Hctx. cbn.
    destruct (is_engine_object b); cbn; [engine_answer|]; split; reflexivity.
Qed.
